(** * The authentication hook of the student-events client (src/hooks/useAuth.tsx)

    A shallow embedding of [useAuth]: the domain check [isValidUTDEmail],
    the restore-on-mount effect, [login], [signup] and [logout], with the
    React state of the hook, the browser's [localStorage] and the two
    backends (the Flask service reached with [fetch], and Supabase's auth
    client) made explicit.

    Modelling conventions.
    - A JavaScript string is a [string].  In the domain check
      [toLowerCase] is [Js.toLowerCase], which maps [A]..[Z] to [a]..[z]
      and leaves every other character alone: the check compares with
      "@utdallas.edu" only.  The filters of the pages lower titles,
      categories and queries of any characters: there
      [String.prototype.toLowerCase] is a parameter, as are
      [Number.prototype.toString] and [Date.prototype.toLocaleString].
    - [localStorage] is a finite map from keys to strings: [getItem] of an
      absent key is [None] (JavaScript's [null]).
    - A JSON body is an object; [response.json()] is untyped, so the
      fields [access_token] and [email] that [login] reads off it are
      values of any kind ([Js.Value]): absent, [null], a string or
      something else.  The state variables they are put in hold such
      values.
    - An [async] function is run to completion: every [await] is answered
      by the environment ([Backends]) at once.  A computation is a function
      from the world (hook state and storage) to a completion (a value or
      a thrown error), a new world and the effects it performed, in order.
    - A call of a state setter takes effect at once, and is logged as an
      effect like the writes to the storage and the requests.
    - The state of the hook is kept with [useState]: each component that
      calls [useAuth] has an instance of its own ([AuthState]); the
      instances share the one [localStorage] ([App]).
    - [response.ok] is computed from the status (200 to 299).
    - The constant [USE_SUPABASE_DIRECTLY] is a field of the configuration,
      so that both of its values can be spoken of; [source_config] has the
      value of the source.
    - [console.log] and [console.error] are not modelled. *)

From Stdlib Require Import String Ascii List Bool Arith Lia.
From stdpp Require Import base option list gmap strings pretty.
Import ListNotations.

Local Open Scope string_scope.

(** ** JavaScript strings *)

Module Js.

(** [String.prototype.toLowerCase], on one character. *)
Definition lower_ascii (c : ascii) : ascii :=
  let n := nat_of_ascii c in
  if (65 <=? n)%nat && (n <=? 90)%nat then ascii_of_nat (n + 32) else c.

Fixpoint toLowerCase (s : string) : string :=
  match s with
  | EmptyString => EmptyString
  | String c r => String (lower_ascii c) (toLowerCase r)
  end.

(** [s.startsWith(p)] *)
Fixpoint startsWith (s p : string) {struct p} : bool :=
  match p, s with
  | EmptyString, _ => true
  | String a p', String b s' => Ascii.eqb a b && startsWith s' p'
  | String _ _, EmptyString => false
  end.

(** [s.includes(sub)]: [sub] starts at some position of [s]. *)
Fixpoint includes (s sub : string) : bool :=
  startsWith s sub ||
  match s with
  | EmptyString => false
  | String _ s' => includes s' sub
  end.

(** [s.endsWith(suf)]: some tail of [s] is [suf]. *)
Fixpoint endsWith (s suf : string) : bool :=
  String.eqb s suf ||
  match s with
  | EmptyString => false
  | String _ s' => endsWith s' suf
  end.

(** [a || b] on strings: the empty string is falsy. *)
Definition or_else (a b : string) : string :=
  match a with
  | EmptyString => b
  | _ => a
  end.

(** [a || b] where [a] may be [undefined]. *)
Definition opt_or_else (a : option string) (b : string) : string :=
  match a with
  | Some s => or_else s b
  | None => b
  end.

(** Truthiness of a value read with [getItem]: [null] and [""] are falsy. *)
Definition truthy (a : option string) : bool :=
  match a with
  | Some (String _ _) => true
  | _ => false
  end.

(** A value as read off a parsed JSON body: [undefined] (the field is
    absent), [null], a string, or any other value (a number, a boolean,
    an array, an object), given by what [String(v)] makes of it. *)
Inductive Value :=
| Undefined
| Null
| Str (s : string)
| Other (shown : string).

(** [String(v)], the conversion [localStorage.setItem] applies. *)
Definition to_string (v : Value) : string :=
  match v with
  | Undefined => "undefined"
  | Null => "null"
  | Str s => s
  | Other shown => shown
  end.

(** An [Error] object: its [name] (the class) and its [message]. *)
Record Error := mkError { name : string; message : string }.

(** [new Error(msg)] *)
Definition new_Error (msg : string) : Error :=
  {| name := "Error"; message := msg |}.

End Js.

(** A string is a value, also under [Some]: the expected type of
    [Some s] decides what kind of [s] is meant. *)
Coercion Js.Str : string >-> Js.Value.
#[local] Arguments Some {A} & a.

(** ** The two backends *)

Module Flask.

(** The JSON object an endpoint answers with, as far as the hook reads
    it: [error] on a rejection, [access_token] and [email] on a login.
    [error] is read with [||] and put in an [Error]: it is [None] when
    absent or falsy, and otherwise what [String] makes of it. *)
Record Json := mkJson {
  error : option string;
  access_token : Js.Value;
  email : Js.Value
}.

(** [response.json()] resolves with the parsed body or rejects. *)
Inductive JsonOutcome :=
| JsonResolves (body : Json)
| JsonRejects (e : Js.Error).

Record Response := mkResponse {
  status : nat;
  statusText : string;
  json : JsonOutcome
}.

(** [response.ok]: the status is in the range 200-299. *)
Definition ok (r : Response) : bool :=
  (200 <=? status r)%nat && (status r <=? 299)%nat.

(** [metadata?: { name?: string }] *)
Record Metadata := mkMetadata { meta_name : option string }.

(** The argument of [JSON.stringify] in the request. *)
Inductive Body :=
| LoginBody (email password : string)
| RegisterBody (email password : string) (metadata : option Metadata).

Record RequestInit := mkRequestInit {
  method : string;
  headers : list (string * string);
  body : Body
}.

(** [fetch(url, init)] resolves with a response or rejects. *)
Inductive FetchOutcome :=
| Resolves (r : Response)
| Rejects (e : Js.Error).

End Flask.

Module Supabase.

(** A Supabase user; [email] is optional in the client's types. *)
Record User := mkUser { id : string; email : option string }.

Record Session := mkSession { access_token : string }.

(** The [data] of [signInWithPassword] and of [signUp]. *)
Record AuthData := mkAuthData {
  user : option User;
  session : option Session
}.

(** An auth call resolves with [{ data, error }] or rejects. *)
Inductive Call (D : Type) :=
| Resolves (data : D) (error : option Js.Error)
| Rejects (e : Js.Error).
Arguments Resolves {D} data error.
Arguments Rejects {D} e.

(** [{ email, password, options: { data } }] *)
Record SignUpArgs := mkSignUpArgs {
  su_email : string;
  su_password : string;
  su_data : Flask.Metadata
}.

End Supabase.

(** What the environment answers to the hook's requests. *)
Record Backends := mkBackends {
  fetch : string -> Flask.RequestInit -> Flask.FetchOutcome;
  signInWithPassword : string -> string -> Supabase.Call Supabase.AuthData;
  signUp : Supabase.SignUpArgs -> Supabase.Call Supabase.AuthData;
  signOut : Supabase.Call unit
}.

(** ** Configuration *)

Record Config := mkConfig {
  VITE_AUTH_BASE_URL : option string;
  USE_SUPABASE_DIRECTLY : bool
}.

(** [import.meta.env.VITE_AUTH_BASE_URL || 'http://localhost:5000'] *)
Definition AUTH_BASE_URL (cfg : Config) : string :=
  Js.opt_or_else (VITE_AUTH_BASE_URL cfg) "http://localhost:5000".

(** The configuration of the source: [USE_SUPABASE_DIRECTLY = true]. *)
Definition source_config (base : option string) : Config :=
  {| VITE_AUTH_BASE_URL := base; USE_SUPABASE_DIRECTLY := true |}.

(** Function to validate UTD email domain. *)
Definition isValidUTDEmail (email : string) : bool :=
  Js.endsWith (Js.toLowerCase email) "@utdallas.edu".

(** ** The hook's state, the storage and the effects *)

(** The value held in [user]: [{ email }] or a Supabase user. *)
Inductive UserValue :=
| EmailUser (email : Js.Value)
| SupabaseUser (u : Supabase.User).

(** The six [useState] variables, with their initial values below.
    [accessToken] is [None] for [null], and [Some v] for a value [v] that
    was put in it. *)
Record AuthState := mkAuthState {
  isLoggedIn : bool;
  isEmailVerified : bool;
  verifiedEmail : Js.Value;
  isLoading : bool;
  user : option UserValue;
  accessToken : option Js.Value
}.

Definition initial_state : AuthState :=
  {| isLoggedIn := false; isEmailVerified := false; verifiedEmail := "";
     isLoading := true; user := None; accessToken := None |}.

(** A call of one of the state setters. *)
Inductive StateUpdate :=
| SetIsLoggedIn (b : bool)
| SetIsEmailVerified (b : bool)
| SetVerifiedEmail (s : Js.Value)
| SetIsLoading (b : bool)
| SetUser (u : option UserValue)
| SetAccessToken (t : option Js.Value).

Definition apply_update (u : StateUpdate) (s : AuthState) : AuthState :=
  match u with
  | SetIsLoggedIn b =>
      mkAuthState b (isEmailVerified s) (verifiedEmail s) (isLoading s) (user s) (accessToken s)
  | SetIsEmailVerified b =>
      mkAuthState (isLoggedIn s) b (verifiedEmail s) (isLoading s) (user s) (accessToken s)
  | SetVerifiedEmail e =>
      mkAuthState (isLoggedIn s) (isEmailVerified s) e (isLoading s) (user s) (accessToken s)
  | SetIsLoading b =>
      mkAuthState (isLoggedIn s) (isEmailVerified s) (verifiedEmail s) b (user s) (accessToken s)
  | SetUser v =>
      mkAuthState (isLoggedIn s) (isEmailVerified s) (verifiedEmail s) (isLoading s) v (accessToken s)
  | SetAccessToken t =>
      mkAuthState (isLoggedIn s) (isEmailVerified s) (verifiedEmail s) (isLoading s) (user s) t
  end.

(** The two keys of [window.localStorage]. *)
Definition TOKEN_KEY : string := "impulse_access_token".
Definition EMAIL_KEY : string := "impulse_user_email".

(** The world a call of the hook's functions runs in. *)
Record World := mkWorld {
  st : AuthState;
  ls : gmap string string
}.

(** Everything a call does to the outside, in the order it does it. *)
Inductive Effect :=
| EState (u : StateUpdate)
| ESetItem (key value : string)
| ERemoveItem (key : string)
| EFetch (url : string) (init : Flask.RequestInit)
| ESignInWithPassword (email password : string)
| ESignUp (args : Supabase.SignUpArgs)
| ESignOut
| EToast (title description variant : string).

(** A request to the primary backend (Flask, over HTTP). *)
Definition is_primary (e : Effect) : bool :=
  match e with
  | EFetch _ _ => true
  | _ => false
  end.

(** A request to the secondary backend (Supabase). *)
Definition is_secondary (e : Effect) : bool :=
  match e with
  | ESignInWithPassword _ _ | ESignUp _ | ESignOut => true
  | _ => false
  end.

Definition is_network (e : Effect) : bool := is_primary e || is_secondary e.

(** A write to persisted storage. *)
Definition is_storage_write (e : Effect) : bool :=
  match e with
  | ESetItem _ _ | ERemoveItem _ => true
  | _ => false
  end.

(** ** Computations: state, exceptions and the effect log *)

Inductive Completion (A : Type) :=
| Normal (a : A)
| Throw (e : Js.Error).
Arguments Normal {A} a.
Arguments Throw {A} e.

Record Run (A : Type) := mkRun {
  completion : Completion A;
  world : World;
  effects : list Effect
}.
Arguments mkRun {A} _ _ _.
Arguments completion {A} _.
Arguments world {A} _.
Arguments effects {A} _.

Definition M (A : Type) : Type := World -> Run A.

Definition ret {A} (a : A) : M A := fun w => mkRun (Normal a) w [].

Definition throw {A} (e : Js.Error) : M A := fun w => mkRun (Throw e) w [].

Definition bind {A B} (m : M A) (k : A -> M B) : M B := fun w =>
  match m w with
  | mkRun (Normal a) w1 e1 =>
      match k a w1 with
      | mkRun c w2 e2 => mkRun c w2 (e1 ++ e2)
      end
  | mkRun (Throw e) w1 e1 => mkRun (Throw e) w1 e1
  end.

(** [try { m } catch (e) { h e }] *)
Definition try_catch {A} (m : M A) (h : Js.Error -> M A) : M A := fun w =>
  match m w with
  | mkRun (Normal a) w1 e1 => mkRun (Normal a) w1 e1
  | mkRun (Throw e) w1 e1 =>
      match h e w1 with
      | mkRun c w2 e2 => mkRun c w2 (e1 ++ e2)
      end
  end.

(** [try { m } finally { f }]: [f] runs on every way out of [m]; the
    completion of [m] stands unless [f] itself throws. *)
Definition try_finally {A} (m : M A) (f : M unit) : M A := fun w =>
  match m w with
  | mkRun c w1 e1 =>
      match f w1 with
      | mkRun (Normal _) w2 e2 => mkRun c w2 (e1 ++ e2)
      | mkRun (Throw e) w2 e2 => mkRun (Throw e) w2 (e1 ++ e2)
      end
  end.

(** stdpp's notations: [x ← m; k] and [m;; k]. *)
#[global] Instance M_ret : MRet M := @ret.
#[global] Instance M_bind : MBind M := fun A B k m => bind m k.

(** *** Primitive actions *)

Definition set_state (u : StateUpdate) : M unit := fun w =>
  mkRun (Normal tt) (mkWorld (apply_update u (st w)) (ls w)) [EState u].

Definition setIsLoggedIn b := set_state (SetIsLoggedIn b).
Definition setIsEmailVerified b := set_state (SetIsEmailVerified b).
Definition setVerifiedEmail s := set_state (SetVerifiedEmail s).
Definition setIsLoading b := set_state (SetIsLoading b).
Definition setUser u := set_state (SetUser u).
Definition setAccessToken t := set_state (SetAccessToken t).

(** [window.localStorage.getItem(key)] *)
Definition getItem (key : string) : M (option string) := fun w =>
  mkRun (Normal (ls w !! key)) w [].

(** [window.localStorage.setItem(key, value)] *)
Definition setItem (key value : string) : M unit := fun w =>
  mkRun (Normal tt) (mkWorld (st w) (<[key := value]> (ls w))) [ESetItem key value].

(** [window.localStorage.removeItem(key)] *)
Definition removeItem (key : string) : M unit := fun w =>
  mkRun (Normal tt) (mkWorld (st w) (delete key (ls w))) [ERemoveItem key].

Definition toast (title description variant : string) : M unit := fun w =>
  mkRun (Normal tt) w [EToast title description variant].

(** [await fetch(url, init)] *)
Definition await_fetch (env : Backends) (url : string) (init : Flask.RequestInit)
  : M Flask.Response := fun w =>
  match fetch env url init with
  | Flask.Resolves r => mkRun (Normal r) w [EFetch url init]
  | Flask.Rejects e => mkRun (Throw e) w [EFetch url init]
  end.

(** [await response.json()] *)
Definition await_json (r : Flask.Response) : M Flask.Json :=
  match Flask.json r with
  | Flask.JsonResolves b => ret b
  | Flask.JsonRejects e => throw e
  end.

(** Awaiting a Supabase call that has just been issued (and logged). *)
Definition await_supabase {D} (e : Effect) (c : Supabase.Call D)
  : M (D * option Js.Error) := fun w =>
  match c with
  | Supabase.Resolves d err => mkRun (Normal (d, err)) w [e]
  | Supabase.Rejects x => mkRun (Throw x) w [e]
  end.

(** ** The hook *)

(** The effect run on mount: restore the session from [localStorage]. *)
Definition restore_session : M unit :=
  token ← getItem TOKEN_KEY;
  email ← getItem EMAIL_KEY;
  match token, email with
  | Some t, Some e =>
      if Js.truthy token && Js.truthy email then
        setIsLoggedIn true;;
        setAccessToken (Some t);;
        setVerifiedEmail e;;
        setUser (Some (EmailUser e));;
        setIsEmailVerified true
      else ret tt
  | _, _ => ret tt
  end;;
  setIsLoading false.

(** What [login] and [signup] return: [{ success: true, data }] or
    [{ success: false, error }]. *)
Inductive AuthResult (D : Type) :=
| Success (data : D)
| Failure (error : Js.Error).
Arguments Success {D} data.
Arguments Failure {D} error.

(** The [data] of a success: the JSON of Flask or the data of Supabase. *)
Inductive Payload :=
| FlaskData (d : Flask.Json)
| SupabaseData (d : Supabase.AuthData).

Definition INVALID_DOMAIN : Js.Error :=
  Js.new_Error "Only @utdallas.edu email addresses are allowed".

(** The test of the inner [catch]: is the server unreachable? *)
Definition unreachable (error : Js.Error) : bool :=
  Js.includes (Js.message error) "404"
  || Js.includes (Js.message error) "Failed to fetch"
  || Js.includes (Js.message error) "Load failed".

(** The inner [catch] of [login] and [signup]: fall through to Supabase
    ([None]: no value returned yet) or throw the error again. *)
Definition flask_catch {A} (error : Js.Error) : M (option A) :=
  if unreachable error then
    toast "Backend server unreachable" "Using Supabase authentication instead" "destructive";;
    ret None
  else throw error.

(** The message for a response that is not [ok]: the [error] of its JSON
    body, or the status line when the body cannot be read. *)
Definition read_error_message (response : Flask.Response) (errorMessage : string)
  : M string :=
  try_catch
    (errorData ← await_json response;
     ret (Js.opt_or_else (Flask.error errorData) errorMessage))
    (fun jsonError =>
       ret (pretty (Flask.status response) +:+ ": "
              +:+ Js.or_else (Flask.statusText response) errorMessage)).

(** The inner [try] of [login]: the attempt on the Flask backend. *)
Definition flask_login (cfg : Config) (env : Backends) (email password : string)
  : M (AuthResult Payload) :=
  response ← await_fetch env (AUTH_BASE_URL cfg +:+ "/auth/login")
    {| Flask.method := "POST";
       Flask.headers := [("Content-Type", "application/json")];
       Flask.body := Flask.LoginBody email password |};
  if negb (Flask.ok response) then
    errorMessage ← read_error_message response "Login failed";
    throw (Js.new_Error errorMessage)
  else
    data ← try_catch (await_json response)
             (fun jsonError => throw (Js.new_Error "Unexpected response from server"));
    setItem TOKEN_KEY (Js.to_string (Flask.access_token data));;
    setItem EMAIL_KEY (Js.to_string (Flask.email data));;
    setIsLoggedIn true;;
    setVerifiedEmail (Flask.email data);;
    setIsEmailVerified true;;
    setUser (Some (EmailUser (Flask.email data)));;
    setAccessToken (Some (Flask.access_token data));;
    ret (Success (FlaskData data)).

(** The second [try] of [login]: Supabase, as fallback or directly. *)
Definition supabase_login (env : Backends) (email password : string)
  : M (AuthResult Payload) :=
  try_catch
    ('(data, supabaseError) ← await_supabase (ESignInWithPassword email password)
                                (signInWithPassword env email password);
     match supabaseError with
     | Some e => throw e
     | None =>
         match Supabase.user data, Supabase.session data with
         | Some u, Some s =>
             setItem TOKEN_KEY (Supabase.access_token s);;
             setItem EMAIL_KEY (Js.opt_or_else (Supabase.email u) "");;
             setIsLoggedIn true;;
             setVerifiedEmail (Js.opt_or_else (Supabase.email u) "");;
             setIsEmailVerified true;;
             setUser (Some (SupabaseUser u));;
             setAccessToken (Some (Supabase.access_token s));;
             ret (Success (SupabaseData data))
         | _, _ => throw (Js.new_Error "Invalid response from Supabase")
         end
     end)
    (fun supabaseError =>
       throw (Js.new_Error (Js.or_else (Js.message supabaseError) "Login failed"))).

(** The outer [catch] of [login]. *)
Definition login_catch (error : Js.Error) : M (AuthResult Payload) :=
  setIsLoggedIn false;;
  setVerifiedEmail "";;
  setUser None;;
  setAccessToken None;;
  removeItem TOKEN_KEY;;
  removeItem EMAIL_KEY;;
  ret (Failure error).

Definition login (cfg : Config) (env : Backends) (email password : string)
  : M (AuthResult Payload) :=
  try_finally
    (try_catch
       (if negb (isValidUTDEmail email) then ret (Failure INVALID_DOMAIN)
        else
          setIsLoading true;;
          returned ←
            (if negb (USE_SUPABASE_DIRECTLY cfg) then
               try_catch (result ← flask_login cfg env email password; ret (Some result))
                         flask_catch
             else ret None);
          match returned with
          | Some result => ret result
          | None => supabase_login env email password
          end)
       login_catch)
    (setIsLoading false).

(** The inner [try] of [signup]. *)
Definition flask_signup (cfg : Config) (env : Backends) (email password : string)
    (metadata : option Flask.Metadata) : M (AuthResult Payload) :=
  response ← await_fetch env (AUTH_BASE_URL cfg +:+ "/auth/register")
    {| Flask.method := "POST";
       Flask.headers := [("Content-Type", "application/json")];
       Flask.body := Flask.RegisterBody email password metadata |};
  if negb (Flask.ok response) then
    errorMessage ← read_error_message response "Signup failed";
    throw (Js.new_Error errorMessage)
  else
    data ← await_json response;
    ret (Success (FlaskData data)).

(** [metadata || {}] *)
Definition metadata_or_empty (metadata : option Flask.Metadata) : Flask.Metadata :=
  match metadata with
  | Some m => m
  | None => {| Flask.meta_name := None |}
  end.

(** The second [try] of [signup]. *)
Definition supabase_signup (env : Backends) (email password : string)
    (metadata : option Flask.Metadata) : M (AuthResult Payload) :=
  try_catch
    (let signupData :=
       {| Supabase.su_email := email;
          Supabase.su_password := password;
          Supabase.su_data := metadata_or_empty metadata |} in
     '(data, supabaseError) ← await_supabase (ESignUp signupData) (signUp env signupData);
     match supabaseError with
     | Some e => throw e
     | None => ret (Success (SupabaseData data))
     end)
    (fun supabaseError =>
       throw (Js.new_Error (Js.or_else (Js.message supabaseError) "Signup failed with Supabase"))).

Definition signup (cfg : Config) (env : Backends) (email password : string)
    (metadata : option Flask.Metadata) : M (AuthResult Payload) :=
  try_finally
    (try_catch
       (if negb (isValidUTDEmail email) then ret (Failure INVALID_DOMAIN)
        else
          setIsLoading true;;
          returned ←
            (if negb (USE_SUPABASE_DIRECTLY cfg) then
               try_catch (result ← flask_signup cfg env email password metadata;
                          ret (Some result))
                         flask_catch
             else ret None);
          match returned with
          | Some result => ret result
          | None => supabase_signup env email password metadata
          end)
       (fun error => ret (Failure error)))
    (setIsLoading false).

Definition logout (env : Backends) : M unit :=
  setIsLoggedIn false;;
  setIsEmailVerified false;;
  setVerifiedEmail "";;
  setUser None;;
  setAccessToken None;;
  removeItem TOKEN_KEY;;
  removeItem EMAIL_KEY;;
  try_catch (await_supabase ESignOut (signOut env);; ret tt)
            (fun error => ret tt).

(** ** The life of a hook instance *)

(** A page load: a fresh instance of the hook on the storage as it is,
    and its mount effect. *)
Definition mount (storage : gmap string string) : World :=
  world (restore_session (mkWorld initial_state storage)).

(** The first load, on a storage nothing was written to yet. *)
Definition app_start : World := mount ∅.

(** ** The instances of the hook *)

(** [useAuth] keeps its state with [useState]: every component that calls
    it (the page of [AuthPage], a page guarded with [useRequireAuth]), in
    every tab, has an instance of its own, and all of them read and write
    the one [localStorage].  An instance that is unmounted is one that is
    not used again. *)
Record App := mkApp {
  instances : list AuthState;
  storage : gmap string string
}.

(** What can happen to the application between two renders: a component
    that calls the hook is mounted (a page load, a navigation, a new
    tab), or a function of the instance [i] is called. *)
Inductive Action :=
| Mount
| Login (i : nat) (env : Backends) (email password : string)
| Signup (i : nat) (env : Backends) (email password : string)
    (metadata : option Flask.Metadata)
| Logout (i : nat) (env : Backends).

(** A call on the instance [i]: it runs on the state of that instance
    and on the shared storage. *)
Definition on_instance (i : nat) (call : World -> World) (a : App) : App :=
  match instances a !! i with
  | Some s =>
      let w := call (mkWorld s (storage a)) in
      mkApp (<[i := st w]> (instances a)) (ls w)
  | None => a
  end.

Definition step (cfg : Config) (a : App) (x : Action) : App :=
  match x with
  | Mount =>
      let w := mount (storage a) in
      mkApp (instances a ++ [st w]) (ls w)
  | Login i env email password =>
      on_instance i (fun w => world (login cfg env email password w)) a
  | Signup i env email password metadata =>
      on_instance i (fun w => world (signup cfg env email password metadata w)) a
  | Logout i env =>
      on_instance i (fun w => world (logout env w)) a
  end.

Definition run_actions (cfg : Config) (l : list Action) (a : App) : App :=
  fold_left (step cfg) l a.

(** Before the first load: no instance, and a storage nothing was
    written to yet. *)
Definition empty_app : App := mkApp [] ∅.

(** The actions whose code writes to [localStorage]. *)
Definition writes_storage (x : Action) : bool :=
  match x with
  | Login _ _ _ _ | Logout _ _ => true
  | Mount | Signup _ _ _ _ _ => false
  end.

(** ** The vocabulary of the properties *)

(** [sub] occurs in [s]. *)
Definition contains (s sub : string) : Prop :=
  exists a b, s = a +:+ sub +:+ b.

(** [s] ends in [suf]. *)
Definition ends_in (s suf : string) : Prop :=
  exists p, s = p +:+ suf.

(** The logged-out state of the session: the four fields [login]'s
    [catch] resets. *)
Definition logged_out (s : AuthState) : Prop :=
  isLoggedIn s = false /\ verifiedEmail s = "" /\ user s = None /\ accessToken s = None.

(** Both storage keys are absent. *)
Definition keys_absent (m : gmap string string) : Prop :=
  m !! TOKEN_KEY = None /\ m !! EMAIL_KEY = None.

(** The session fields of two states are the same ([isLoading] apart). *)
Definition same_session (s s' : AuthState) : Prop :=
  isLoggedIn s' = isLoggedIn s /\ isEmailVerified s' = isEmailVerified s
  /\ verifiedEmail s' = verifiedEmail s /\ user s' = user s
  /\ accessToken s' = accessToken s.

(** The session in memory and the persisted one agree: both hold the
    same token and email of a logged-in session, or both are empty. *)
Definition agree (w : World) : Prop :=
  (isLoggedIn (st w) = true
   /\ exists t e : string, accessToken (st w) = Some t /\ verifiedEmail (st w) = e
                  /\ ls w !! TOKEN_KEY = Some t /\ ls w !! EMAIL_KEY = Some e)
  \/ (logged_out (st w) /\ keys_absent (ls w)).

(** Between two actions: nothing is loading, and the two sessions agree
    on a token and an email that are not empty, or both are empty. *)
Definition settled (w : World) : Prop :=
  isLoading (st w) = false
  /\ ((isLoggedIn (st w) = true
       /\ exists t e : string, t <> "" /\ e <> ""
                      /\ accessToken (st w) = Some t /\ verifiedEmail (st w) = e
                      /\ ls w !! TOKEN_KEY = Some t /\ ls w !! EMAIL_KEY = Some e)
      \/ (logged_out (st w) /\ keys_absent (ls w))).

(** A backend whose successful logins carry a token and an email that
    are strings and not empty. *)
Definition login_answers_nonempty (env : Backends) : Prop :=
  (forall url init r d,
      fetch env url init = Flask.Resolves r ->
      Flask.ok r = true ->
      Flask.json r = Flask.JsonResolves d ->
      exists t e : string,
        Flask.access_token d = t /\ Flask.email d = e /\ t <> "" /\ e <> "")
  /\ (forall email password d u s,
         signInWithPassword env email password = Supabase.Resolves d None ->
         Supabase.user d = Some u -> Supabase.session d = Some s ->
         Supabase.access_token s <> ""
         /\ exists m, Supabase.email u = Some m /\ m <> "").

Definition well_behaved (x : Action) : Prop :=
  match x with
  | Login _ env _ _ => login_answers_nonempty env
  | _ => True
  end.

(** Of [n] instances, the instance [i] alone. *)
Definition only (i n : nat) : list bool := Nat.eqb i <$> seq 0 n.

(** The instances that have seen the last write to the storage, one flag
    for each instance: the instance whose [login] (past the domain
    check) or [logout] made the write, and the instances mounted since. *)
Definition step_seen (f : list bool) (x : Action) : list bool :=
  match x with
  | Mount => f ++ [true]
  | Login i _ email _ =>
      if isValidUTDEmail email && (i <? length f)%nat then only i (length f) else f
  | Logout i _ => if (i <? length f)%nat then only i (length f) else f
  | Signup _ _ _ _ _ => f
  end.

Definition seen_last_write (l : list Action) : list bool := fold_left step_seen l [].

(** The persisted session is one the mount effect restores, or none. *)
Definition storage_ok (m : gmap string string) : Prop :=
  (exists t e, t <> "" /\ e <> "" /\ m !! TOKEN_KEY = Some t /\ m !! EMAIL_KEY = Some e)
  \/ keys_absent m.

(** Between two actions: no instance is loading, and every instance that
    has seen the last write is settled. *)
Definition app_settled (a : App) (f : list bool) : Prop :=
  length f = length (instances a)
  /\ storage_ok (storage a)
  /\ forall i s, instances a !! i = Some s ->
       isLoading s = false
       /\ (f !! i = Some true -> settled (mkWorld s (storage a))).

(** The first request a call sends over the network, if any. *)
Definition first_request (l : list Effect) : option Effect :=
  head (List.filter is_network l).

(** What the effects of a call do to the world, replayed. *)
Definition apply_effect (w : World) (e : Effect) : World :=
  match e with
  | EState u => mkWorld (apply_update u (st w)) (ls w)
  | ESetItem k v => mkWorld (st w) (<[k := v]> (ls w))
  | ERemoveItem k => mkWorld (st w) (delete k (ls w))
  | _ => w
  end.

Definition replay (l : list Effect) (w : World) : World :=
  fold_left apply_effect l w.

(** The requests of a call that go to the primary, to the secondary
    backend. *)
Definition primary_requests (l : list Effect) : list Effect := List.filter is_primary l.
Definition secondary_requests (l : list Effect) : list Effect := List.filter is_secondary l.

(** The message carries one of the markers of an unreachable server. *)
Definition unreachable_marker (msg : string) : Prop :=
  contains msg "404" \/ contains msg "Failed to fetch" \/ contains msg "Load failed".

(** The requests [login] and [signup] send to Flask. *)
Definition login_request (cfg : Config) (email password : string) : Effect :=
  EFetch (AUTH_BASE_URL cfg +:+ "/auth/login")
    {| Flask.method := "POST";
       Flask.headers := [("Content-Type", "application/json")];
       Flask.body := Flask.LoginBody email password |}.

Definition register_request (cfg : Config) (email password : string)
    (metadata : option Flask.Metadata) : Effect :=
  EFetch (AUTH_BASE_URL cfg +:+ "/auth/register")
    {| Flask.method := "POST";
       Flask.headers := [("Content-Type", "application/json")];
       Flask.body := Flask.RegisterBody email password metadata |}.

(** The request [signup] sends to Supabase. *)
Definition signUp_request (email password : string)
    (metadata : option Flask.Metadata) : Effect :=
  ESignUp {| Supabase.su_email := email;
             Supabase.su_password := password;
             Supabase.su_data := metadata_or_empty metadata |}.

(** What [logout] does before it asks Supabase to sign out. *)
Definition logout_clearing : list Effect :=
  [EState (SetIsLoggedIn false); EState (SetIsEmailVerified false);
   EState (SetVerifiedEmail ""); EState (SetUser None);
   EState (SetAccessToken None);
   ERemoveItem TOKEN_KEY; ERemoveItem EMAIL_KEY].

(** What the inner [try] of [signup] comes to: the parsed JSON of a
    response that is [ok], or the error it throws. *)
Definition register_outcome (cfg : Config) (env : Backends) (email password : string)
    (metadata : option Flask.Metadata) : Flask.Json + Js.Error :=
  match fetch env (AUTH_BASE_URL cfg +:+ "/auth/register")
          {| Flask.method := "POST";
             Flask.headers := [("Content-Type", "application/json")];
             Flask.body := Flask.RegisterBody email password metadata |} with
  | Flask.Rejects e => inr e
  | Flask.Resolves r =>
      match Flask.ok r, Flask.json r with
      | true, Flask.JsonResolves d => inl d
      | true, Flask.JsonRejects e => inr e
      | false, Flask.JsonResolves d =>
          inr (Js.new_Error (Js.opt_or_else (Flask.error d) "Signup failed"))
      | false, Flask.JsonRejects _ =>
          inr (Js.new_Error (pretty (Flask.status r) +:+ ": "
                               +:+ Js.or_else (Flask.statusText r) "Signup failed"))
      end
  end.

(** What the second [try] of [signup] comes to: the [data] of Supabase,
    or a new [Error] with the message of the error of Supabase. *)
Definition signUp_outcome (env : Backends) (email password : string)
    (metadata : option Flask.Metadata) : AuthResult Payload :=
  match signUp env {| Supabase.su_email := email;
                      Supabase.su_password := password;
                      Supabase.su_data := metadata_or_empty metadata |} with
  | Supabase.Resolves d None => Success (SupabaseData d)
  | Supabase.Resolves _ (Some e) | Supabase.Rejects e =>
      Failure (Js.new_Error (Js.or_else (Js.message e) "Signup failed with Supabase"))
  end.

(** The result of [signup], read off the answers of the backends. *)
Definition signup_result (cfg : Config) (env : Backends) (email password : string)
    (metadata : option Flask.Metadata) : AuthResult Payload :=
  if isValidUTDEmail email then
    if USE_SUPABASE_DIRECTLY cfg then signUp_outcome env email password metadata
    else
      match register_outcome cfg env email password metadata with
      | inl d => Success (FlaskData d)
      | inr e =>
          if unreachable e then signUp_outcome env email password metadata
          else Failure e
      end
  else Failure INVALID_DOMAIN.


(** ** Sample environments and worlds *)

Definition network_error : Js.Error := Js.mkError "TypeError" "Failed to fetch".

(** Flask cannot be reached. *)
Definition flask_down (url : string) (init : Flask.RequestInit) : Flask.FetchOutcome :=
  Flask.Rejects network_error.

(** Flask answers every request with [r]. *)
Definition flask_answers (r : Flask.Response) (url : string) (init : Flask.RequestInit)
  : Flask.FetchOutcome :=
  Flask.Resolves r.


(** A response with an error status whose body is [{ error }]. *)
Definition flask_error (status : nat) (msg : string) : Flask.Response :=
  {| Flask.status := status; Flask.statusText := "";
     Flask.json := Flask.JsonResolves
       {| Flask.error := Some msg; Flask.access_token := ""; Flask.email := "" |} |}.

(** Supabase's data for a user with this email and a session with this token. *)
Definition supabase_data (email : option string) (token : string) : Supabase.AuthData :=
  {| Supabase.user := Some {| Supabase.id := "u1"; Supabase.email := email |};
     Supabase.session := Some {| Supabase.access_token := token |} |}.

Definition invalid_credentials : Js.Error :=
  Js.mkError "AuthApiError" "Invalid login credentials".

Definition already_registered : Js.Error :=
  Js.mkError "AuthApiError" "User already registered".

(** Supabase's data when there is neither a user nor a session. *)
Definition no_data : Supabase.AuthData :=
  {| Supabase.user := None; Supabase.session := None |}.

Definition sample_env (f : string -> Flask.RequestInit -> Flask.FetchOutcome)
    (answer : Supabase.Call Supabase.AuthData) : Backends :=
  {| fetch := f;
     signInWithPassword := fun _ _ => answer;
     signUp := fun _ => answer;
     signOut := Supabase.Resolves tt None |}.

(** Flask as primary backend, and the configuration of the source. *)
Definition flask_first : Config :=
  {| VITE_AUTH_BASE_URL := None; USE_SUPABASE_DIRECTLY := false |}.
Definition supabase_only : Config := source_config None.

(** A hook instance with a session, and the storage that goes with it. *)
Definition logged_in_world : World :=
  {| st := {| isLoggedIn := true; isEmailVerified := true;
              verifiedEmail := "student@utdallas.edu"; isLoading := false;
              user := Some (EmailUser "student@utdallas.edu");
              accessToken := Some "abc" |};
     ls := <[EMAIL_KEY := "student@utdallas.edu"]> (<[TOKEN_KEY := "abc"]> ∅) |}.

(** * The rest of the hook and its callers *)

(** ** The route guard (useRequireAuth) *)

Module Router.

(** [navigate(to, { state: { from } })] *)
Record Navigate := mkNavigate { to : string; state_from : option string }.

End Router.

(** The effect of [useRequireAuth] on one render: with the session not
    loading and not logged in, go to the login page and remember where
    from. *)
Definition useRequireAuth_effect (s : AuthState) (pathname : string)
  : list Router.Navigate :=
  if negb (isLoading s) && negb (isLoggedIn s) then
    [{| Router.to := "/auth"; Router.state_from := Some pathname |}]
  else [].

(** The renders of a fresh instance of the hook on a page load: the
    initial state, then the state the mount effect leaves. *)
Definition renders_on_load (storage : gmap string string) : list AuthState :=
  [initial_state; st (mount storage)].

(** What the guard does on a page load at [pathname]. *)
Definition guard_on_load (storage : gmap string string) (pathname : string)
  : list Router.Navigate :=
  flat_map (fun s => useRequireAuth_effect s pathname) (renders_on_load storage).

Definition redirect_to_login (pathname : string) : Router.Navigate :=
  {| Router.to := "/auth"; Router.state_from := Some pathname |}.

(** ** More vocabulary for the effects of a call *)

Definition is_toast (e : Effect) : bool :=
  match e with
  | EToast _ _ _ => true
  | _ => false
  end.

Definition is_success {D} (result : AuthResult D) : bool :=
  match result with
  | Success _ => true
  | Failure _ => false
  end.

(** The toast of the inner [catch]. *)
Definition fallback_toast : Effect :=
  EToast "Backend server unreachable" "Using Supabase authentication instead" "destructive".

(** A string is truthy when it is not empty. *)
Definition nonempty (s : string) : bool :=
  match s with
  | EmptyString => false
  | String _ _ => true
  end.

(** ** The login page (src/pages/AuthPage.tsx) *)

Module AuthPage.

(** The [useState] variables of the page. *)
Record State := mkState {
  isLoading : bool;
  errorMessage : string;
  loginEmail : string;
  loginPassword : string;
  loginEmailError : string;
  signupName : string;
  signupEmail : string;
  signupPassword : string;
  signupConfirmPassword : string;
  signupEmailError : string
}.

Definition initial : State :=
  mkState false "" "" "" "" "" "" "" "" "".

Definition setIsLoading (b : bool) (p : State) : State :=
  mkState b (errorMessage p) (loginEmail p) (loginPassword p) (loginEmailError p)
    (signupName p) (signupEmail p) (signupPassword p) (signupConfirmPassword p)
    (signupEmailError p).

Definition setErrorMessage (v : string) (p : State) : State :=
  mkState (isLoading p) v (loginEmail p) (loginPassword p) (loginEmailError p)
    (signupName p) (signupEmail p) (signupPassword p) (signupConfirmPassword p)
    (signupEmailError p).

Definition setLoginEmail (v : string) (p : State) : State :=
  mkState (isLoading p) (errorMessage p) v (loginPassword p) (loginEmailError p)
    (signupName p) (signupEmail p) (signupPassword p) (signupConfirmPassword p)
    (signupEmailError p).

Definition setLoginEmailError (v : string) (p : State) : State :=
  mkState (isLoading p) (errorMessage p) (loginEmail p) (loginPassword p) v
    (signupName p) (signupEmail p) (signupPassword p) (signupConfirmPassword p)
    (signupEmailError p).

Definition setSignupEmail (v : string) (p : State) : State :=
  mkState (isLoading p) (errorMessage p) (loginEmail p) (loginPassword p) (loginEmailError p)
    (signupName p) v (signupPassword p) (signupConfirmPassword p)
    (signupEmailError p).

Definition setSignupEmailError (v : string) (p : State) : State :=
  mkState (isLoading p) (errorMessage p) (loginEmail p) (loginPassword p) (loginEmailError p)
    (signupName p) (signupEmail p) (signupPassword p) (signupConfirmPassword p) v.

(** What a handler does to the outside: the effects of the hook's call it
    awaits, its own toasts, and its navigation. *)
Inductive UiEffect :=
| Hook (e : Effect)
| Toast (title description : string) (variant : option string)
| Navigate (to : string).

(** A handler run to its end: the page's state, the world of the page's
    instance of the hook, and the effects in order. *)
Record Outcome := mkOutcome {
  page : State;
  hook : World;
  ui : list UiEffect
}.

Definition is_navigation (e : UiEffect) : bool :=
  match e with
  | Navigate _ => true
  | _ => false
  end.

Definition navigations (l : list UiEffect) : list UiEffect := List.filter is_navigation l.

Definition clearError (p : State) : State :=
  setSignupEmailError "" (setLoginEmailError "" (setErrorMessage "" p)).

Definition validateUTDEmail (email : string) : bool :=
  Js.endsWith (Js.toLowerCase email) "@utdallas.edu".

Definition handleLogin (cfg : Config) (env : Backends) (p : State) (w : World) : Outcome :=
  let p0 := clearError p in
  if negb (validateUTDEmail (loginEmail p)) then
    mkOutcome (setLoginEmailError "Please use your UTD email (@utdallas.edu)" p0) w []
  else
    let p1 := setIsLoading true p0 in
    let r := login cfg env (loginEmail p) (loginPassword p) w in
    let awaited := map Hook (effects r) in
    (* the [catch] block, and [finally] after it *)
    let catch (error : Js.Error) :=
      let description := Js.or_else (Js.message error) "An error occurred during login" in
      mkOutcome (setIsLoading false (setErrorMessage description p1)) (world r)
        (awaited ++ [Toast "Login failed" description (Some "destructive")])%list in
    match completion r with
    | Normal (Success _) =>
        mkOutcome (setIsLoading false p1) (world r)
          (awaited ++ [Toast "Login successful!" "Welcome back to UTD Events." None;
                       Navigate "/events"])%list
    | Normal (Failure error) => catch (Js.new_Error (Js.message error))
    | Throw e => catch e
    end.

Section Signup.

(** The two readings of a signup's [data] that the model of the payload
    does not carry: [user.email_confirmed_at] of a Supabase user, and the
    whole test [data?.user && !data.user.email_confirmed_at] on the JSON
    of Flask. *)
Variable email_confirmed_at : Supabase.User -> option string.
Variable flask_awaits_confirmation : Flask.Json -> bool.

(** [result.data?.user && !result.data.user.email_confirmed_at] *)
Definition awaits_confirmation (data : Payload) : bool :=
  match data with
  | FlaskData d => flask_awaits_confirmation d
  | SupabaseData d =>
      match Supabase.user d with
      | Some u => negb (Js.truthy (email_confirmed_at u))
      | None => false
      end
  end.

Definition handleSignup (cfg : Config) (env : Backends) (p : State) (w : World) : Outcome :=
  let p0 := clearError p in
  if negb (validateUTDEmail (signupEmail p)) then
    mkOutcome (setSignupEmailError "Please use your UTD email (@utdallas.edu)" p0) w []
  else if negb (String.eqb (signupPassword p) (signupConfirmPassword p)) then
    mkOutcome (setErrorMessage "Passwords don't match" p0) w []
  else
    let p1 := setIsLoading true p0 in
    let r := signup cfg env (signupEmail p) (signupPassword p)
               (Some {| Flask.meta_name := Some (signupName p) |}) w in
    let awaited := map Hook (effects r) in
    (* the [catch] block, and [finally] after it *)
    let catch (error : Js.Error) :=
      let description := Js.or_else (Js.message error) "An error occurred during signup" in
      mkOutcome (setIsLoading false (setErrorMessage description p1)) (world r)
        (awaited ++ [Toast "Sign up failed" description (Some "destructive")])%list in
    match completion r with
    | Normal (Success data) =>
        if awaits_confirmation data then
          mkOutcome (setIsLoading false p1) (world r)
            (awaited ++ [Toast "Verification email sent"
                           "Please check your email to verify your account before logging in."
                           None;
                         Navigate "/auth"])%list
        else
          mkOutcome (setIsLoading false p1) (world r)
            (awaited ++ [Toast "Account created!" "Welcome to UTD Events." None;
                         Navigate "/events"])%list
    | Normal (Failure error) => catch (Js.new_Error (Js.message error))
    | Throw e => catch e
    end.

End Signup.

End AuthPage.

(** ** The events page: filtering by category and by title *)

Module Events.

(** An event, as far as the page reads it. *)
Record Event := mkEvent { id : string; title : string; category : string }.

Section Filter.

(** [String.prototype.toLowerCase], taken as given: the titles, the
    categories and the query are strings of any characters, and what it
    makes of them is left to it. *)
Variable toLowerCase : string -> string.

(** The predicate of [allEvents.filter]. *)
Definition keeps (filter searchQuery : string) (event : Event) : bool :=
  if negb (String.eqb filter "all")
     && negb (String.eqb (toLowerCase (category event)) (toLowerCase filter))
  then false
  else if nonempty searchQuery
          && negb (Js.includes (toLowerCase (title event)) (toLowerCase searchQuery))
  then false
  else true.

Definition filteredEvents (filter searchQuery : string) (allEvents : list Event)
  : list Event :=
  List.filter (keeps filter searchQuery) allEvents.

End Filter.

End Events.

(** ** The meetups page (src/pages/Meetups.tsx) *)

Module EventRow.

(** The type for the data returned from Supabase; its numbers are the
    integers of the table's columns. *)
Record t := mk {
  id : Z;
  title : string;
  description : option string;
  location : string;
  event_date : string;
  created_at : string;
  creator_id : Z;
  xp_reward : option Z;
  organizer_xp_reward : option Z;
  semester : option string
}.

End EventRow.

Module Meetup.

(** A meetup as the page shows it. *)
Record t := mk {
  id : string;
  title : string;
  description : string;
  dateTime : string;
  location : string;
  points : Z;
  createdBy : string;
  creatorAvatar : option string;
  lobbySize : Z;
  attendees : list string
}.

End Meetup.

Module Meetups.

(** [n || d] on numbers that may be [null]: [null] and [0] are falsy. *)
Definition number_or (n : option Z) (d : Z) : Z :=
  match n with
  | Some 0%Z | None => d
  | Some v => v
  end.

(** The two state variables the fetch touches. *)
Record State := mkState {
  allMeetups : list Meetup.t;
  isLoading : bool
}.

(** What the environment answers to the fetch: whether
    [initializeDatabase()] rejects, and the answer to
    [supabase.from('events').select('*')]. *)
Record Database := mkDatabase {
  initializeDatabase : option Js.Error;
  select_events : Supabase.Call (option (list EventRow.t))
}.

Inductive Toast := mkToast (title description variant : string).

Section Page.

(** [Number.prototype.toString] on the ids of the rows and
    [String.prototype.toLowerCase] on the titles and the query, both
    taken as given. *)
Variable toString : Z -> string.
Variable toLowerCase : string -> string.

(** Convert Supabase data to the Meetup type: the function mapped over
    the rows. *)
Definition toMeetup (event : EventRow.t) : Meetup.t :=
  {| Meetup.id := toString (EventRow.id event);
     Meetup.title := EventRow.title event;
     Meetup.description :=
       Js.opt_or_else (EventRow.description event) "No description available";
     Meetup.dateTime := EventRow.event_date event;
     Meetup.location := EventRow.location event;
     Meetup.points := number_or (EventRow.xp_reward event) 3;
     Meetup.createdBy := "Student";
     Meetup.creatorAvatar := None;
     Meetup.lobbySize := 5;
     Meetup.attendees := [] |}.

(** The predicate of [allMeetups.filter]. *)
Definition keeps (searchQuery : string) (meetup : Meetup.t) : bool :=
  if nonempty searchQuery
     && negb (Js.includes (toLowerCase (Meetup.title meetup)) (toLowerCase searchQuery))
  then false
  else true.

Definition filteredMeetups (searchQuery : string) (allMeetups : list Meetup.t)
  : list Meetup.t :=
  List.filter (keeps searchQuery) allMeetups.

(** The body of the effect that fetches the meetups, run to its end: the
    new state and the toasts shown. *)
Definition fetchMeetups (db : Database) (s : State) : State * list Toast :=
  let s1 := mkState (allMeetups s) true in
  let '(s2, toasts) :=
    match initializeDatabase db with
    | Some _ => (s1, [])
    | None =>
        match select_events db with
        | Supabase.Rejects _ => (s1, [])
        | Supabase.Resolves _ (Some _) =>
            (s1, [mkToast "Error fetching meetups"
                    "Could not load meetups from the database" "destructive"])
        | Supabase.Resolves (Some (row :: rows)) None =>
            (mkState (map toMeetup (row :: rows)) (isLoading s1), [])
        | Supabase.Resolves _ None => (s1, [])
        end
    end in
  (mkState (allMeetups s2) false, toasts).

End Page.

End Meetups.

(** The integers a JavaScript number holds exactly; [toString] prints
    them in decimal digits. *)
Definition safe_integer (n : Z) : Prop :=
  (- (2 ^ 53 - 1) <= n <= 2 ^ 53 - 1)%Z.

Definition decimal_on_safe_integers (toString : Z -> string) : Prop :=
  forall n, safe_integer n -> toString n = pretty n.

(** A lowering that makes the empty string of the empty string only. *)
Definition keeps_empty_apart (toLowerCase : string -> string) : Prop :=
  forall s, toLowerCase s = "" <-> s = "".

(** ** The meetup service (src/services/flaskService.ts) *)

Module MeetupService.

(** The types for meetups that match the Flask backend. *)
Record FlaskMeetup := mkFlaskMeetup {
  id : string;
  title : string;
  description : string;
  dateTime : string;
  location : string;
  points : Z;
  createdBy : string;
  creatorAvatar : option string;
  lobbySize : Z;
  category : option string;
  attendees : option (list string)
}.

(** A row of the [events] table, as far as the service reads it. *)
Record Row := mkRow {
  row_id : Z;
  row_title : string;
  row_description : option string;
  row_event_date : string;
  row_location : string;
  row_xp_reward : option Z;
  row_category : option string
}.

(** An awaited promise settles: it resolves with a value or rejects. *)
Inductive Settled (A : Type) :=
| Resolves (a : A)
| Rejects (e : Js.Error).
Arguments Resolves {A} a.
Arguments Rejects {A} e.

(** What the API client answers: [{ data?, error? }]. *)
Record ApiResponse (D : Type) := mkApiResponse {
  data : option D;
  error : option string
}.
Arguments mkApiResponse {D} _ _.
Arguments data {D} _.
Arguments error {D} _.

(** What a function of the service does to the outside. *)
Inductive Call :=
| Api (method : string)
| SupabaseSelect
| Toast (title description : string).

(** A function of the service run to its end: how its promise settles,
    after which calls. *)
Definition Async (A : Type) : Type := Settled A * list Call.

Definition resolve {A} (a : A) : Async A := (Resolves a, []).

Definition reject {A} (e : Js.Error) : Async A := (Rejects e, []).

Definition await {A B} (m : Async A) (k : A -> Async B) : Async B :=
  match m with
  | (Resolves a, calls) => let '(s, calls') := k a in (s, (calls ++ calls')%list)
  | (Rejects e, calls) => (Rejects e, calls)
  end.

(** [try { m } catch (error) { h error }] *)
Definition try_catch {A} (m : Async A) (h : Js.Error -> Async A) : Async A :=
  match m with
  | (Resolves a, calls) => (Resolves a, calls)
  | (Rejects e, calls) => let '(s, calls') := h e in (s, (calls ++ calls')%list)
  end.

(** A call of the API client, and the query on Supabase, answered by the
    environment. *)
Definition call_api {D} (method : string) (answer : Settled (ApiResponse D))
  : Async (ApiResponse D) :=
  (answer, [Api method]).

Definition select_events (answer : Supabase.Call (option (list Row)))
  : Async (option (list Row) * option Js.Error) :=
  match answer with
  | Supabase.Resolves d err => (Resolves (d, err), [SupabaseSelect])
  | Supabase.Rejects e => (Rejects e, [SupabaseSelect])
  end.

Definition toast (title description : string) : Async unit :=
  (Resolves tt, [Toast title description]).

Section Service.

(** [new Date(s).toLocaleString()], which depends on the locale. *)
Variable toLocaleString : string -> string.

(** Transform Supabase data to FlaskMeetup format. *)
Definition toFlaskMeetup (event : Row) : FlaskMeetup :=
  {| id := pretty (row_id event);
     title := row_title event;
     description := Js.opt_or_else (row_description event) "No description available";
     dateTime := toLocaleString (row_event_date event);
     location := row_location event;
     points := Meetups.number_or (row_xp_reward event) 3;
     createdBy := "Student";
     creatorAvatar := None;
     lobbySize := 5;
     category := Some (Js.opt_or_else (row_category event) "Other");
     attendees := Some [] |}.

(** Fetch all meetups with error handling. *)
Definition fetchMeetups (api : Settled (ApiResponse (list FlaskMeetup)))
    (supabase : Supabase.Call (option (list Row))) : Async (list FlaskMeetup) :=
  try_catch
    (await (call_api "getAllMeetups" api) (fun response =>
       if Js.truthy (error response) then
         await (select_events supabase) (fun '(data, error) =>
           match error with
           | Some e => reject e
           | None =>
               match data with
               | Some (event :: events) => resolve (map toFlaskMeetup (event :: events))
               | _ => resolve []
               end
           end)
       else
         resolve (match data response with Some d => d | None => [] end)))
    (fun error => resolve []).

End Service.

(** Join a meetup lobby. *)
Definition joinMeetupLobby (api : Settled (ApiResponse unit)) : Async bool :=
  try_catch
    (await (call_api "joinMeetupLobby" api) (fun response =>
       if Js.truthy (error response) then resolve true
       else
         await (toast "Joined lobby"
                  "You've joined the meetup lobby. Don't forget to scan the QR code at the meetup to check in and earn points!")
           (fun _ => resolve true)))
    (fun error => resolve true).

(** Check in to a meetup. *)
Definition checkInToMeetup (api : Settled (ApiResponse unit)) : Async bool :=
  try_catch
    (await (call_api "checkInToMeetup" api) (fun response =>
       if Js.truthy (error response) then resolve false
       else
         await (toast "Check-in successful!"
                  "You've checked in to this meetup and earned points!")
           (fun _ => resolve true)))
    (fun error => resolve false).

(** The API client answered, and without an error. *)
Definition answered_ok {D} (api : Settled (ApiResponse D)) : bool :=
  match api with
  | Resolves response => negb (Js.truthy (error response))
  | Rejects _ => false
  end.

Definition is_toast (c : Call) : bool :=
  match c with
  | Toast _ _ => true
  | _ => false
  end.


End MeetupService.

(** ** Symbolic execution of a call *)

Ltac m_eval :=
  cbv beta iota zeta delta
    [mbind M_bind bind try_catch try_finally ret throw set_state
     setIsLoggedIn setIsEmailVerified setVerifiedEmail setIsLoading setUser
     setAccessToken getItem setItem removeItem toast await_fetch await_json
     await_supabase read_error_message flask_catch login_catch negb app].

(** Split on the innermost answer the execution is waiting for. *)
Ltac m_case :=
  match goal with
  | |- context [match ?x with _ => _ end] =>
      lazymatch x with
      | context [match _ with _ => _ end] => fail
      | _ => destruct x eqn:?
      end
  end.

Ltac m_run := m_eval; repeat (m_case; m_eval).

(** Read the fields of the resulting run. *)
Ltac m_proj :=
  cbn [completion world effects st ls isLoggedIn isEmailVerified
       verifiedEmail isLoading user accessToken apply_update] in *.

(** Name the run of a call that occurs in the goal, set the goal aside,
    execute the call once, and put each of its outcomes in place of the
    name. *)
Ltac run_named r Hr :=
  pattern r;
  match goal with
  | |- ?P r =>
      let Q := fresh "Q" in
      set (Q := P); revert Hr;
      unfold login, flask_login, supabase_login, signup, flask_signup, supabase_signup;
      m_run; intros ->; subst Q; cbv beta; m_proj
  end.

Ltac run_login :=
  match goal with
  | |- context [login ?c ?e ?m ?p ?w] =>
      let r := fresh "r" in
      let Hr := fresh "Hr" in
      remember (login c e m p w) as r eqn:Hr in *; run_named r Hr
  end.

Ltac run_signup :=
  match goal with
  | |- context [signup ?c ?e ?m ?p ?d ?w] =>
      let r := fresh "r" in
      let Hr := fresh "Hr" in
      remember (signup c e m p d w) as r eqn:Hr in *; run_named r Hr
  end.

(** ** JavaScript's string tests, specified *)

Section StringFacts.

Lemma append_nil (s : string) : "" +:+ s = s.
Proof. reflexivity. Qed.

Lemma append_cons (c : ascii) (s t : string) :
  String c s +:+ t = String c (s +:+ t).
Proof. reflexivity. Qed.

Lemma startsWith_spec (p s : string) :
  Js.startsWith s p = true <-> exists r, s = p +:+ r.
Proof.
  revert s. induction p as [|a p IH]; intros s; simpl.
  - split; [exists s; reflexivity | reflexivity].
  - destruct s as [|b s].
    + split; [discriminate | intros [r Hr]; rewrite append_cons in Hr; discriminate].
    + rewrite andb_true_iff, Ascii.eqb_eq, IH. split.
      * intros [-> [r ->]]. exists r. reflexivity.
      * intros [r Hr]. rewrite append_cons in Hr. injection Hr as -> ->. eauto.
Qed.

Lemma includes_spec (s sub : string) :
  Js.includes s sub = true <-> contains s sub.
Proof.
  unfold contains. induction s as [|c s IH]; cbn [Js.includes].
  - rewrite orb_false_r, startsWith_spec. split.
    + intros [r Hr]. exists "", r. exact Hr.
    + intros [a [b Hab]]. destruct a as [|c a].
      * eauto.
      * rewrite append_cons in Hab. discriminate.
  - rewrite orb_true_iff, startsWith_spec, IH. split.
    + intros [[r Hr] | [a [b Hab]]].
      * exists "", r. exact Hr.
      * exists (String c a), b. rewrite append_cons, <- Hab. reflexivity.
    + intros [a [b Hab]]. destruct a as [|c' a].
      * left. eauto.
      * right. rewrite append_cons in Hab. injection Hab as -> ->. eauto.
Qed.

Lemma endsWith_spec (s suf : string) :
  Js.endsWith s suf = true <-> ends_in s suf.
Proof.
  unfold ends_in. induction s as [|c s IH]; cbn [Js.endsWith].
  - rewrite orb_false_r, String.eqb_eq. split.
    + intros <-. exists "". reflexivity.
    + intros [p Hp]. destruct p as [|c p].
      * exact Hp.
      * rewrite append_cons in Hp. discriminate.
  - rewrite orb_true_iff, String.eqb_eq, IH. split.
    + intros [<- | [p ->]].
      * exists "". reflexivity.
      * exists (String c p). reflexivity.
    + intros [p Hp]. destruct p as [|c' p].
      * left. exact Hp.
      * right. rewrite append_cons in Hp. injection Hp as -> ->. eauto.
Qed.

Lemma unreachable_spec (error : Js.Error) :
  unreachable error = true <->
  contains (Js.message error) "404"
  \/ contains (Js.message error) "Failed to fetch"
  \/ contains (Js.message error) "Load failed".
Proof.
  unfold unreachable. rewrite !orb_true_iff, !includes_spec. tauto.
Qed.

Lemma isValidUTDEmail_spec (email : string) :
  isValidUTDEmail email = true <-> ends_in (Js.toLowerCase email) "@utdallas.edu".
Proof. apply endsWith_spec. Qed.

End StringFacts.

(** ** logout *)

Section Logout.

Variable env : Backends.

(** Whatever Supabase answers, [logout] completes normally, in the
    cleared world, after the clearing effects and one sign-out request. *)
Lemma logout_run (w : World) :
  logout env w =
  mkRun (Normal tt)
    (mkWorld (mkAuthState false false "" (isLoading (st w)) None None)
             (delete EMAIL_KEY (delete TOKEN_KEY (ls w))))
    (logout_clearing ++ [ESignOut])%list.
Proof.
  unfold logout. m_eval. destruct (signOut env) as [[] err|e]; reflexivity.
Qed.

Lemma logout_clearing_replay (w : World) :
  replay logout_clearing w = world (logout env w).
Proof. rewrite logout_run. reflexivity. Qed.

Lemma logout_keys_absent (w : World) : keys_absent (ls (world (logout env w))).
Proof.
  rewrite logout_run. split; cbn [world ls].
  - rewrite lookup_delete_ne by discriminate. apply lookup_delete_eq.
  - apply lookup_delete_eq.
Qed.

End Logout.

(** C6: after [logout] both storage keys are absent and the session in
    memory is the empty state, from any world and whatever the sign-out
    answers; the clearing effects come before the request to Supabase and
    already give the final world; the call never fails. *)
Theorem logout_clears_then_signs_out (env : Backends) (w : World) :
  completion (logout env w) = Normal tt
  /\ logged_out (st (world (logout env w)))
  /\ isEmailVerified (st (world (logout env w))) = false
  /\ keys_absent (ls (world (logout env w)))
  /\ exists clearing,
       effects (logout env w) = (clearing ++ [ESignOut])%list
       /\ existsb is_network clearing = false
       /\ replay clearing w = world (logout env w).
Proof.
  split; [rewrite logout_run; reflexivity|].
  split; [rewrite logout_run; repeat split|].
  split; [rewrite logout_run; reflexivity|].
  split; [apply logout_keys_absent|].
  exists logout_clearing. split; [rewrite logout_run; reflexivity|].
  split; [reflexivity | apply logout_clearing_replay].
Qed.

(** C9: a second [logout] changes nothing: the world after two calls in
    a row is the world after the first. *)
Theorem logout_idempotent (env1 env2 : Backends) (w : World) :
  world (logout env2 (world (logout env1 w))) = world (logout env1 w).
Proof.
  rewrite !logout_run. cbn [world st ls isLoading]. f_equal.
  apply map_eq. intros k.
  destruct (decide (k = EMAIL_KEY)) as [->|He].
  - rewrite !lookup_delete_eq. reflexivity.
  - destruct (decide (k = TOKEN_KEY)) as [->|Ht].
    + rewrite (lookup_delete_ne _ EMAIL_KEY) by congruence.
      rewrite lookup_delete_eq.
      rewrite (lookup_delete_ne _ EMAIL_KEY) by congruence.
      rewrite lookup_delete_eq. reflexivity.
    + rewrite !lookup_delete_ne by congruence. reflexivity.
Qed.

(** ** The domain check of login and signup *)

Section Validation.

Variables (cfg : Config) (env : Backends) (w : World).

(** A rejected email: nothing but [finally]'s [setIsLoading(false)]. *)
Lemma login_invalid (email password : string) :
  isValidUTDEmail email = false ->
  login cfg env email password w =
  mkRun (Normal (Failure INVALID_DOMAIN))
    (mkWorld (apply_update (SetIsLoading false) (st w)) (ls w))
    [EState (SetIsLoading false)].
Proof. intros H. unfold login. rewrite H. reflexivity. Qed.

Lemma signup_invalid (email password : string) (metadata : option Flask.Metadata) :
  isValidUTDEmail email = false ->
  signup cfg env email password metadata w =
  mkRun (Normal (Failure INVALID_DOMAIN))
    (mkWorld (apply_update (SetIsLoading false) (st w)) (ls w))
    [EState (SetIsLoading false)].
Proof. intros H. unfold signup. rewrite H. reflexivity. Qed.

(** An accepted email: the call raises [isLoading] and goes on to a
    backend. *)
Lemma login_valid (email password : string) :
  isValidUTDEmail email = true ->
  exists rest,
    effects (login cfg env email password w) = EState (SetIsLoading true) :: rest
    /\ existsb is_network rest = true.
Proof.
  intros H. unfold login, flask_login, supabase_login. rewrite H.
  m_run; m_proj; eexists; (split; [reflexivity | reflexivity]).
Qed.

Lemma signup_valid (email password : string) (metadata : option Flask.Metadata) :
  isValidUTDEmail email = true ->
  exists rest,
    effects (signup cfg env email password metadata w) = EState (SetIsLoading true) :: rest
    /\ existsb is_network rest = true.
Proof.
  intros H. unfold signup, flask_signup, supabase_signup. rewrite H.
  m_run; m_proj; eexists; (split; [reflexivity | reflexivity]).
Qed.

End Validation.

Lemma not_true_false (b : bool) : b <> true -> b = false.
Proof. destruct b; congruence. Qed.

(** C2, as the code has it: an email whose lower-case form does not end
    in the suffix is rejected by [login] and by [signup] with the
    validation failure, and no request goes to either backend. *)
Theorem invalid_domain_no_network (cfg : Config) (env : Backends)
    (email password : string) (metadata : option Flask.Metadata) (w : World) :
  ~ ends_in (Js.toLowerCase email) "@utdallas.edu" ->
  completion (login cfg env email password w) = Normal (Failure INVALID_DOMAIN)
  /\ List.filter is_network (effects (login cfg env email password w)) = []
  /\ completion (signup cfg env email password metadata w) = Normal (Failure INVALID_DOMAIN)
  /\ List.filter is_network (effects (signup cfg env email password metadata w)) = [].
Proof.
  intros H. rewrite <- isValidUTDEmail_spec in H. apply not_true_false in H.
  rewrite login_invalid, signup_invalid by exact H. repeat split.
Qed.

Lemma invalid_domain_no_network_witness :
  let env := sample_env flask_down
               (Supabase.Resolves (supabase_data (Some "student@gmail.com") "abc") None) in
  ~ ends_in (Js.toLowerCase "Student@Gmail.com") "@utdallas.edu"
  /\ completion (login supabase_only env "Student@Gmail.com" "pw" logged_in_world)
     = Normal (Failure INVALID_DOMAIN)
  /\ List.filter is_network
       (effects (login supabase_only env "Student@Gmail.com" "pw" logged_in_world)) = [].
Proof.
  cbv zeta.
  assert (H : ~ ends_in (Js.toLowerCase "Student@Gmail.com") "@utdallas.edu")
    by (rewrite <- endsWith_spec; vm_compute; discriminate).
  split; [exact H|].
  pose proof (invalid_domain_no_network supabase_only
                (sample_env flask_down
                   (Supabase.Resolves (supabase_data (Some "student@gmail.com") "abc") None))
                "Student@Gmail.com" "pw" None logged_in_world H) as (H1 & H2 & _).
  split; [exact H1 | exact H2].
Defined.

(** C2 as stated fails: this email does not end in the suffix as written,
    yet [login] and [signup] send a request to Supabase (and [login]
    succeeds). *)
Lemma uppercase_domain_reaches_network :
  let env := sample_env flask_down
               (Supabase.Resolves (supabase_data (Some "student@utdallas.edu") "abc") None) in
  let w := mkWorld initial_state ∅ in
  ~ ends_in "STUDENT@UTDALLAS.EDU" "@utdallas.edu"
  /\ List.filter is_network (effects (login supabase_only env "STUDENT@UTDALLAS.EDU" "pw" w))
     = [ESignInWithPassword "STUDENT@UTDALLAS.EDU" "pw"]
  /\ completion (login supabase_only env "STUDENT@UTDALLAS.EDU" "pw" w)
     = Normal (Success (SupabaseData (supabase_data (Some "student@utdallas.edu") "abc")))
  /\ List.filter is_network (effects (signup supabase_only env "STUDENT@UTDALLAS.EDU" "pw" None w))
     = [signUp_request "STUDENT@UTDALLAS.EDU" "pw" None].
Proof.
  cbv zeta. split; [rewrite <- endsWith_spec; vm_compute; discriminate|].
  repeat split; vm_compute; reflexivity.
Qed.

(** C10: the domain check ignores case: an email whose lower-case form
    ends in the suffix passes it, and [login] and [signup] go on to raise
    [isLoading] and to send a request. *)
Theorem domain_check_ignores_case (cfg : Config) (env : Backends)
    (email password : string) (metadata : option Flask.Metadata) (w : World) :
  ends_in (Js.toLowerCase email) "@utdallas.edu" ->
  isValidUTDEmail email = true
  /\ (exists rest,
        effects (login cfg env email password w) = EState (SetIsLoading true) :: rest
        /\ existsb is_network rest = true)
  /\ (exists rest,
        effects (signup cfg env email password metadata w) = EState (SetIsLoading true) :: rest
        /\ existsb is_network rest = true).
Proof.
  intros H. apply isValidUTDEmail_spec in H.
  split; [exact H|]. split; [apply login_valid | apply signup_valid]; exact H.
Qed.

Lemma domain_check_ignores_case_witness :
  ends_in (Js.toLowerCase "STUDENT@UTDALLAS.EDU") "@utdallas.edu"
  /\ isValidUTDEmail "STUDENT@UTDALLAS.EDU" = true.
Proof.
  assert (H : ends_in (Js.toLowerCase "STUDENT@UTDALLAS.EDU") "@utdallas.edu")
    by (exists "student"; vm_compute; reflexivity).
  split; [exact H|].
  exact (proj1 (domain_check_ignores_case supabase_only
                  (sample_env flask_down (Supabase.Rejects invalid_credentials))
                  "STUDENT@UTDALLAS.EDU" "pw" None (mkWorld initial_state ∅) H)).
Defined.

(** ** The choice of the backend *)

(** C4: for an email that passes the domain check, the first request of
    [login] and of [signup] goes to Supabase when the flag is set, and
    then no request goes to Flask at all; it goes to Flask when the flag
    is not set. *)
Theorem flag_selects_first_backend (cfg : Config) (env : Backends)
    (email password : string) (metadata : option Flask.Metadata) (w : World) :
  isValidUTDEmail email = true ->
  first_request (effects (login cfg env email password w))
  = Some (if USE_SUPABASE_DIRECTLY cfg then ESignInWithPassword email password
          else login_request cfg email password)
  /\ primary_requests (effects (login cfg env email password w))
     = (if USE_SUPABASE_DIRECTLY cfg then [] else [login_request cfg email password])
  /\ first_request (effects (signup cfg env email password metadata w))
     = Some (if USE_SUPABASE_DIRECTLY cfg then signUp_request email password metadata
             else register_request cfg email password metadata)
  /\ primary_requests (effects (signup cfg env email password metadata w))
     = (if USE_SUPABASE_DIRECTLY cfg then []
        else [register_request cfg email password metadata]).
Proof.
  intros H. split; [|split; [|split]].
  - unfold login, flask_login, supabase_login. rewrite H. m_run; reflexivity.
  - unfold login, flask_login, supabase_login. rewrite H. m_run; reflexivity.
  - unfold signup, flask_signup, supabase_signup. rewrite H. m_run; reflexivity.
  - unfold signup, flask_signup, supabase_signup. rewrite H. m_run; reflexivity.
Qed.

Lemma flag_selects_first_backend_witness :
  let env := sample_env flask_down (Supabase.Rejects invalid_credentials) in
  let w := mkWorld initial_state ∅ in
  isValidUTDEmail "student@utdallas.edu" = true
  /\ first_request (effects (login supabase_only env "student@utdallas.edu" "pw" w))
     = Some (ESignInWithPassword "student@utdallas.edu" "pw")
  /\ first_request (effects (login flask_first env "student@utdallas.edu" "pw" w))
     = Some (login_request flask_first "student@utdallas.edu" "pw").
Proof.
  cbv zeta.
  assert (H : isValidUTDEmail "student@utdallas.edu" = true) by (vm_compute; reflexivity).
  split; [exact H|]. split.
  - exact (proj1 (flag_selects_first_backend supabase_only
                    (sample_env flask_down (Supabase.Rejects invalid_credentials))
                    "student@utdallas.edu" "pw" None (mkWorld initial_state ∅) H)).
  - exact (proj1 (flag_selects_first_backend flask_first
                    (sample_env flask_down (Supabase.Rejects invalid_credentials))
                    "student@utdallas.edu" "pw" None (mkWorld initial_state ∅) H)).
Defined.

(** ** The fallback to Supabase *)

Section Fallback.

Variables (cfg : Config) (env : Backends) (email password : string).
Variable metadata : option Flask.Metadata.

(** The attempt on Flask fails the same way in every world, and leaves
    the world alone. *)
Lemma flask_login_throws (w : World) (e : Js.Error) :
  completion (flask_login cfg env email password w) = Throw e ->
  forall w', flask_login cfg env email password w'
             = mkRun (Throw e) w' [login_request cfg email password].
Proof.
  unfold flask_login, login_request. m_run; m_proj; intros H w'; try discriminate H.
  all: injection H as <-; reflexivity.
Qed.

Lemma flask_signup_throws (w : World) (e : Js.Error) :
  completion (flask_signup cfg env email password metadata w) = Throw e ->
  forall w', flask_signup cfg env email password metadata w'
             = mkRun (Throw e) w' [register_request cfg email password metadata].
Proof.
  unfold flask_signup, register_request. m_run; m_proj; intros H w'; try discriminate H.
  all: injection H as <-; reflexivity.
Qed.

Hypothesis flask_enabled : USE_SUPABASE_DIRECTLY cfg = false.
Hypothesis valid : isValidUTDEmail email = true.

(** After a failure of Flask, [login] asks Supabase exactly when the
    inner [catch] finds the server unreachable; otherwise the error comes
    back as it was thrown. *)
Lemma login_after_flask_failure (w : World) (e : Js.Error) :
  completion (flask_login cfg env email password w) = Throw e ->
  primary_requests (effects (login cfg env email password w))
  = [login_request cfg email password]
  /\ secondary_requests (effects (login cfg env email password w))
     = (if unreachable e then [ESignInWithPassword email password] else [])
  /\ (unreachable e = false ->
      completion (login cfg env email password w) = Normal (Failure e)).
Proof.
  intros H. pose proof (flask_login_throws w e H) as E.
  unfold login. rewrite flask_enabled, valid. m_eval. rewrite E. m_eval.
  destruct (unreachable e); m_eval.
  - unfold supabase_login. m_run; m_proj; repeat split; discriminate.
  - repeat split.
Qed.

Lemma signup_after_flask_failure (w : World) (e : Js.Error) :
  completion (flask_signup cfg env email password metadata w) = Throw e ->
  primary_requests (effects (signup cfg env email password metadata w))
  = [register_request cfg email password metadata]
  /\ secondary_requests (effects (signup cfg env email password metadata w))
     = (if unreachable e then [signUp_request email password metadata] else [])
  /\ (unreachable e = false ->
      completion (signup cfg env email password metadata w) = Normal (Failure e)).
Proof.
  intros H. pose proof (flask_signup_throws w e H) as E.
  unfold signup. rewrite flask_enabled, valid. m_eval. rewrite E. m_eval.
  destruct (unreachable e); m_eval.
  - unfold supabase_signup. m_run; m_proj; repeat split; discriminate.
  - repeat split.
Qed.

End Fallback.

Lemma unreachable_false (e : Js.Error) :
  unreachable e = false <-> ~ unreachable_marker (Js.message e).
Proof.
  unfold unreachable_marker. rewrite <- unreachable_spec.
  destruct (unreachable e); split; congruence.
Qed.

(** C1: with Flask as primary backend and an email that passes the domain
    check, when the attempt on Flask fails with error [e] the call sends
    its one request to Flask, and it sends a request to Supabase if and
    only if the message of [e] contains "404", "Failed to fetch" or
    "Load failed"; when it contains none of them, no request goes to
    Supabase and the call returns the failure [e] itself.  This holds for
    [login] and for [signup]. *)
Theorem fallback_iff_unreachable (cfg : Config) (env : Backends)
    (email password : string) (metadata : option Flask.Metadata) (w : World)
    (e1 e2 : Js.Error) :
  USE_SUPABASE_DIRECTLY cfg = false ->
  isValidUTDEmail email = true ->
  completion (flask_login cfg env email password w) = Throw e1 ->
  completion (flask_signup cfg env email password metadata w) = Throw e2 ->
  (primary_requests (effects (login cfg env email password w))
   = [login_request cfg email password]
   /\ (secondary_requests (effects (login cfg env email password w)) <> []
       <-> unreachable_marker (Js.message e1))
   /\ (unreachable_marker (Js.message e1)
       \/ (secondary_requests (effects (login cfg env email password w)) = []
           /\ completion (login cfg env email password w) = Normal (Failure e1))))
  /\ (primary_requests (effects (signup cfg env email password metadata w))
      = [register_request cfg email password metadata]
      /\ (secondary_requests (effects (signup cfg env email password metadata w)) <> []
          <-> unreachable_marker (Js.message e2))
      /\ (unreachable_marker (Js.message e2)
          \/ (secondary_requests (effects (signup cfg env email password metadata w)) = []
              /\ completion (signup cfg env email password metadata w)
                 = Normal (Failure e2)))).
Proof.
  intros Hflag Hvalid H1 H2. split.
  - destruct (login_after_flask_failure cfg env email password Hflag Hvalid w e1 H1)
      as (Hp & Hs & Hr).
    split; [exact Hp|]. rewrite Hs.
    destruct (unreachable e1) eqn:Hu.
    + apply unreachable_spec in Hu. split; [|left; exact Hu].
      split; [intros _; exact Hu | discriminate].
    + pose proof Hu as Hn. apply unreachable_false in Hn.
      split; [|right; split; [reflexivity | exact (Hr eq_refl)]].
      split; [congruence | contradiction].
  - destruct (signup_after_flask_failure cfg env email password metadata Hflag Hvalid w e2 H2)
      as (Hp & Hs & Hr).
    split; [exact Hp|]. rewrite Hs.
    destruct (unreachable e2) eqn:Hu.
    + apply unreachable_spec in Hu. split; [|left; exact Hu].
      split; [intros _; exact Hu | discriminate].
    + pose proof Hu as Hn. apply unreachable_false in Hn.
      split; [|right; split; [reflexivity | exact (Hr eq_refl)]].
      split; [congruence | contradiction].
Qed.

Lemma fallback_iff_unreachable_witness :
  let env := sample_env (flask_answers (flask_error 401 "Invalid credentials"))
               (Supabase.Resolves (supabase_data (Some "student@utdallas.edu") "abc") None) in
  let e := Js.new_Error "Invalid credentials" in
  (USE_SUPABASE_DIRECTLY flask_first = false
   /\ isValidUTDEmail "student@utdallas.edu" = true
   /\ completion (flask_login flask_first env "student@utdallas.edu" "pw" logged_in_world)
      = Throw e
   /\ completion (flask_signup flask_first env "student@utdallas.edu" "pw" None logged_in_world)
      = Throw e)
  /\ primary_requests (effects (login flask_first env "student@utdallas.edu" "pw" logged_in_world))
     = [login_request flask_first "student@utdallas.edu" "pw"].
Proof.
  cbv zeta.
  assert (H1 : USE_SUPABASE_DIRECTLY flask_first = false) by reflexivity.
  assert (H2 : isValidUTDEmail "student@utdallas.edu" = true) by (vm_compute; reflexivity).
  assert (H3 : completion (flask_login flask_first
                 (sample_env (flask_answers (flask_error 401 "Invalid credentials"))
                    (Supabase.Resolves (supabase_data (Some "student@utdallas.edu") "abc") None))
                 "student@utdallas.edu" "pw" logged_in_world)
               = Throw (Js.new_Error "Invalid credentials")) by (vm_compute; reflexivity).
  assert (H4 : completion (flask_signup flask_first
                 (sample_env (flask_answers (flask_error 401 "Invalid credentials"))
                    (Supabase.Resolves (supabase_data (Some "student@utdallas.edu") "abc") None))
                 "student@utdallas.edu" "pw" None logged_in_world)
               = Throw (Js.new_Error "Invalid credentials")) by (vm_compute; reflexivity).
  split; [repeat split; assumption|].
  exact (proj1 (proj1 (fallback_iff_unreachable flask_first _ _ _ None logged_in_world
                         _ _ H1 H2 H3 H4))).
Defined.

(** ** Storage after a write of both keys, after a removal of both *)

Section Storage.

Variable m : gmap string string.

Lemma stored_token (t e : string) :
  <[EMAIL_KEY := e]> (<[TOKEN_KEY := t]> m) !! TOKEN_KEY = Some t.
Proof. rewrite lookup_insert_ne by discriminate. apply lookup_insert_eq. Qed.

Lemma stored_email (t e : string) :
  <[EMAIL_KEY := e]> (<[TOKEN_KEY := t]> m) !! EMAIL_KEY = Some e.
Proof. apply lookup_insert_eq. Qed.

Lemma removed_keys_absent : keys_absent (delete EMAIL_KEY (delete TOKEN_KEY m)).
Proof.
  split.
  - rewrite lookup_delete_ne by discriminate. apply lookup_delete_eq.
  - apply lookup_delete_eq.
Qed.

End Storage.

(** ** Failures of login and signup *)

(** [login] and [signup] always return: no error escapes them. *)
Lemma login_returns cfg env email password w :
  exists result, completion (login cfg env email password w) = Normal result.
Proof. unfold login, flask_login, supabase_login. m_run; m_proj; eauto. Qed.

Lemma signup_returns cfg env email password metadata w :
  exists result, completion (signup cfg env email password metadata w) = Normal result.
Proof. unfold signup, flask_signup, supabase_signup. m_run; m_proj; eauto. Qed.

(** A failure of [login] past the domain check goes through the outer
    [catch]. *)
Lemma login_failure_resets cfg env email password w e :
  isValidUTDEmail email = true ->
  completion (login cfg env email password w) = Normal (Failure e) ->
  logged_out (st (world (login cfg env email password w)))
  /\ keys_absent (ls (world (login cfg env email password w))).
Proof.
  intros Hv. unfold login, flask_login, supabase_login. rewrite Hv.
  m_run; m_proj; intros H; try discriminate H.
  all: split; [repeat split | apply removed_keys_absent].
Qed.

(** [signup] touches neither the session nor the storage. *)
Lemma signup_frame cfg env email password metadata w :
  same_session (st w) (st (world (signup cfg env email password metadata w)))
  /\ ls (world (signup cfg env email password metadata w)) = ls w
  /\ List.filter is_storage_write (effects (signup cfg env email password metadata w)) = [].
Proof.
  unfold signup, flask_signup, supabase_signup.
  m_run; m_proj; repeat split.
Qed.

(** C3, as the code has it: every failure of [login] on an email that
    passed the domain check leaves the session logged out (isLoggedIn
    false, email empty, user and accessToken null) and both storage keys
    absent; the failure of [login] on an email that did not pass it, and
    every failure of [signup], the one of the domain check included,
    leave the session and the storage as they were. *)
Theorem login_failure_resets_signup_failure_keeps :
  (forall (cfg : Config) (env : Backends) (email password : string) (w : World)
          (e : Js.Error),
      isValidUTDEmail email = true ->
      completion (login cfg env email password w) = Normal (Failure e) ->
      logged_out (st (world (login cfg env email password w)))
      /\ keys_absent (ls (world (login cfg env email password w))))
  /\ (forall (cfg : Config) (env : Backends) (email password : string) (w : World),
         isValidUTDEmail email = false ->
         completion (login cfg env email password w) = Normal (Failure INVALID_DOMAIN)
         /\ same_session (st w) (st (world (login cfg env email password w)))
         /\ ls (world (login cfg env email password w)) = ls w)
  /\ (forall (cfg : Config) (env : Backends) (email password : string)
             (metadata : option Flask.Metadata) (w : World) (e : Js.Error),
         completion (signup cfg env email password metadata w) = Normal (Failure e) ->
         same_session (st w) (st (world (signup cfg env email password metadata w)))
         /\ ls (world (signup cfg env email password metadata w)) = ls w).
Proof.
  split; [|split].
  - intros cfg env email password w e Hv Hl.
    exact (login_failure_resets cfg env email password w e Hv Hl).
  - intros cfg env email password w Hv.
    rewrite (login_invalid cfg env w email password Hv).
    split; [reflexivity|]. split; [repeat split | reflexivity].
  - intros cfg env email password metadata w e _.
    destruct (signup_frame cfg env email password metadata w) as (H1 & H2 & _).
    split; assumption.
Qed.

Lemma login_failure_resets_signup_failure_keeps_witness :
  let env := sample_env flask_down (Supabase.Rejects invalid_credentials) in
  (isValidUTDEmail "student@utdallas.edu" = true
   /\ completion (login supabase_only env "student@utdallas.edu" "pw" logged_in_world)
      = Normal (Failure (Js.new_Error "Invalid login credentials"))
   /\ completion (signup supabase_only env "student@utdallas.edu" "pw" None logged_in_world)
      = Normal (Failure (Js.new_Error "Invalid login credentials"))
   /\ completion (signup supabase_only env "Student@Gmail.com" "pw" None logged_in_world)
      = Normal (Failure INVALID_DOMAIN))
  /\ (logged_out (st (world (login supabase_only env "student@utdallas.edu" "pw"
                               logged_in_world)))
      /\ keys_absent (ls (world (login supabase_only env "student@utdallas.edu" "pw"
                                   logged_in_world))))
  /\ ls (world (signup supabase_only env "student@utdallas.edu" "pw" None logged_in_world))
     = ls logged_in_world
  /\ ls (world (signup supabase_only env "Student@Gmail.com" "pw" None logged_in_world))
     = ls logged_in_world.
Proof.
  cbv zeta.
  assert (H1 : isValidUTDEmail "student@utdallas.edu" = true) by (vm_compute; reflexivity).
  assert (H2 : completion (login supabase_only
                 (sample_env flask_down (Supabase.Rejects invalid_credentials))
                 "student@utdallas.edu" "pw" logged_in_world)
               = Normal (Failure (Js.new_Error "Invalid login credentials")))
    by (vm_compute; reflexivity).
  assert (H3 : completion (signup supabase_only
                 (sample_env flask_down (Supabase.Rejects invalid_credentials))
                 "student@utdallas.edu" "pw" None logged_in_world)
               = Normal (Failure (Js.new_Error "Invalid login credentials")))
    by (vm_compute; reflexivity).
  assert (H4 : completion (signup supabase_only
                 (sample_env flask_down (Supabase.Rejects invalid_credentials))
                 "Student@Gmail.com" "pw" None logged_in_world)
               = Normal (Failure INVALID_DOMAIN))
    by (vm_compute; reflexivity).
  split; [repeat split; assumption|].
  split; [exact (proj1 login_failure_resets_signup_failure_keeps _ _ _ _ _ _ H1 H2)|].
  split.
  - exact (proj2 (proj2 (proj2 login_failure_resets_signup_failure_keeps)
                    _ _ _ _ _ _ _ H3)).
  - exact (proj2 (proj2 (proj2 login_failure_resets_signup_failure_keeps)
                    _ _ _ _ _ _ _ H4)).
Defined.

(** C3 as stated fails: [signup] returns a failure from a logged-in
    session, and the session is still logged in and both keys are still
    stored. *)
Lemma signup_failure_keeps_session :
  let env := sample_env flask_down (Supabase.Rejects invalid_credentials) in
  let r := signup supabase_only env "student@utdallas.edu" "pw" None logged_in_world in
  completion r = Normal (Failure (Js.new_Error "Invalid login credentials"))
  /\ isLoggedIn (st (world r)) = true
  /\ accessToken (st (world r)) = Some "abc"
  /\ ls (world r) !! TOKEN_KEY = Some "abc"
  /\ ls (world r) !! EMAIL_KEY = Some "student@utdallas.edu"
  /\ ~ logged_out (st (world r))
  /\ ~ keys_absent (ls (world r)).
Proof.
  cbv zeta. repeat split; try (vm_compute; reflexivity).
  - intros (H & _). vm_compute in H. discriminate H.
  - intros (H & _). vm_compute in H. discriminate H.
Qed.

(** ** Success of login against Flask *)




(** ** signup and the session *)

(** C8, as the code has it: [signup] always returns, and what it returns
    is [signup_result]: on success the data the backend answered (the
    parsed JSON of the register response, or the [data] of Supabase), on
    failure an [Error]: the one of the domain check, the one thrown in the
    Flask attempt when its message has no unreachable marker, or a new
    [Error] with the message of the error of Supabase.  The session
    fields in memory and the storage are after the call what they were
    before it, and no effect of the call writes to the storage. *)
Theorem signup_never_persists (cfg : Config) (env : Backends)
    (email password : string) (metadata : option Flask.Metadata) (w : World) :
  completion (signup cfg env email password metadata w)
  = Normal (signup_result cfg env email password metadata)
  /\ same_session (st w) (st (world (signup cfg env email password metadata w)))
  /\ ls (world (signup cfg env email password metadata w)) = ls w
  /\ List.filter is_storage_write (effects (signup cfg env email password metadata w)) = [].
Proof.
  split; [|exact (signup_frame cfg env email password metadata w)].
  unfold signup, flask_signup, supabase_signup, signup_result, register_outcome,
    signUp_outcome.
  m_run; m_proj; reflexivity.
Qed.

(** C8 as stated fails in its last clause: a failure is not the result of
    the backend as it came.  The error Supabase answers with (an
    [AuthApiError]) comes back as a new [Error] that has its message only;
    a response of Flask with an error status comes back as a new [Error]
    with the [error] text of its body, and the response itself is not
    returned.  The session and the storage are kept in both runs. *)
Lemma signup_failure_is_rebuilt :
  let env := sample_env (flask_answers (flask_error 400 "Email already registered"))
               (Supabase.Resolves no_data (Some already_registered)) in
  let r := signup supabase_only env "student@utdallas.edu" "pw" None logged_in_world in
  let r' := signup flask_first env "student@utdallas.edu" "pw" None logged_in_world in
  (signUp env {| Supabase.su_email := "student@utdallas.edu";
                 Supabase.su_password := "pw";
                 Supabase.su_data := metadata_or_empty None |}
   = Supabase.Resolves no_data (Some already_registered)
   /\ completion r = Normal (Failure (Js.new_Error "User already registered"))
   /\ completion r <> Normal (Failure already_registered)
   /\ world r = logged_in_world)
  /\ (completion r' = Normal (Failure (Js.new_Error "Email already registered"))
      /\ world r' = logged_in_world).
Proof.
  cbv zeta. repeat split; try (vm_compute; reflexivity).
  intros H. vm_compute in H. discriminate H.
Qed.

(** ** The session in memory and the persisted session *)

Section Mount.

Variable m : gmap string string.

(** The mount effect reads the storage and never writes it. *)
Lemma mount_storage : ls (mount m) = m.
Proof.
  unfold mount, restore_session. m_eval. m_proj.
  destruct (m !! TOKEN_KEY) as [[|c t]|]; destruct (m !! EMAIL_KEY) as [[|c' e]|];
    reflexivity.
Qed.

Lemma mount_restores (t e : string) :
  m !! TOKEN_KEY = Some t -> m !! EMAIL_KEY = Some e -> t <> "" -> e <> "" ->
  st (mount m) = mkAuthState true true e false (Some (EmailUser e)) (Some t).
Proof.
  intros Ht He Hnt Hne. unfold mount, restore_session. m_eval. m_proj.
  rewrite Ht, He. destruct t; [congruence|]. destruct e; [congruence|]. reflexivity.
Qed.

Lemma mount_empty :
  keys_absent m -> st (mount m) = mkAuthState false false "" false None None.
Proof.
  intros [Ht He]. unfold mount, restore_session. m_eval. m_proj.
  rewrite Ht. reflexivity.
Qed.

Lemma mount_settled :
  (exists t e, t <> "" /\ e <> "" /\ m !! TOKEN_KEY = Some t /\ m !! EMAIL_KEY = Some e)
  \/ keys_absent m ->
  settled (mount m).
Proof.
  unfold settled. rewrite mount_storage.
  intros [(t & e & Hnt & Hne & Ht & He) | Ha].
  - rewrite (mount_restores t e Ht He Hnt Hne). split; [reflexivity|].
    left. split; [reflexivity|]. exists t, e. repeat split; assumption.
  - rewrite (mount_empty Ha). split; [reflexivity|].
    right. split; [repeat split | exact Ha].
Qed.

End Mount.

Section Steps.

Variable cfg : Config.

Lemma or_else_nonempty (s d : string) : s <> "" -> Js.or_else s d = s.
Proof. destruct s; [congruence | reflexivity]. Qed.

(** [signup] ends in the world it started in, with [isLoading] down. *)
Lemma signup_world env email password metadata w :
  world (signup cfg env email password metadata w)
  = mkWorld (apply_update (SetIsLoading false) (st w)) (ls w).
Proof.
  unfold signup, flask_signup, supabase_signup. m_run; reflexivity.
Qed.

(** A [login] past the domain check settles the instance it is called
    on, whatever the instance held before. *)
Lemma login_settled env email password w :
  isValidUTDEmail email = true -> login_answers_nonempty env ->
  settled (world (login cfg env email password w)).
Proof.
  intros Hv [Hf Hs]. unfold settled, login, flask_login, supabase_login.
  rewrite Hv.
  m_run; m_proj; (split; [reflexivity|]).
  (* every failure goes through the outer catch *)
  all: try (solve [right; split; [repeat split | apply removed_keys_absent]]).
  (* a success: against Flask, or against Supabase *)
  all: left; (split; [reflexivity|]).
  all: first
    [ edestruct Hf as (tk & ml & Htk & Hml & Hnt & Hne); [eassumption..|];
      rewrite Htk, Hml; cbn [Js.to_string]
    | edestruct Hs as (Hnt & mail & Hm & Hne); [eassumption..|];
      rewrite Hm; cbn [Js.opt_or_else]; rewrite (or_else_nonempty _ _ Hne) ].
  all: eexists _, _; repeat split; eauto using stored_token, stored_email.
Qed.

Lemma logout_settled env w :
  isLoading (st w) = false -> settled (world (logout env w)).
Proof.
  intros Hl. rewrite logout_run. split; [exact Hl|].
  right. split; [repeat split | apply removed_keys_absent].
Qed.

Lemma loading_down (s : AuthState) :
  isLoading s = false -> apply_update (SetIsLoading false) s = s.
Proof. destruct s. cbn. intros ->. reflexivity. Qed.

Lemma settled_storage_ok (w : World) : settled w -> storage_ok (ls w).
Proof.
  intros [_ [(_ & t & e & Hnt & Hne & _ & _ & Ht & He) | [_ Ha]]].
  - left. exists t, e. auto.
  - right. exact Ha.
Qed.

Lemma only_length (i n : nat) : length (only i n) = n.
Proof. unfold only. rewrite length_fmap. apply length_seq. Qed.

Lemma only_lookup (i n j : nat) : only i n !! j = Some true -> j = i.
Proof.
  unfold only. rewrite list_lookup_fmap.
  destruct (seq 0 n !! j) as [k|] eqn:Hk; [|discriminate].
  apply lookup_seq in Hk as [-> _]. cbn. intros H. injection H as H.
  apply Nat.eqb_eq in H. congruence.
Qed.

(** A call that leaves the world of a settled instance alone. *)
Lemma on_instance_id (i : nat) (call : World -> World) (a : App) :
  (forall s, instances a !! i = Some s ->
             call (mkWorld s (storage a)) = mkWorld s (storage a)) ->
  on_instance i call a = a.
Proof.
  intros H. unfold on_instance.
  destruct (instances a !! i) as [s|] eqn:Hs; [|reflexivity].
  rewrite (H s eq_refl). cbn. rewrite (list_insert_id _ _ _ Hs).
  destruct a; reflexivity.
Qed.

(** A call that settles the instance it is made on. *)
Lemma on_instance_settled (i : nat) (call : World -> World) (a : App) (f : list bool) :
  app_settled a f ->
  (forall s, instances a !! i = Some s -> isLoading s = false ->
             settled (call (mkWorld s (storage a)))) ->
  app_settled (on_instance i call a)
    (if (i <? length f)%nat then only i (length f) else f).
Proof.
  intros (Hlen & Hok & Hall) Hcall. unfold on_instance.
  destruct (instances a !! i) as [s|] eqn:Hs.
  - pose proof (lookup_lt_Some _ _ _ Hs) as Hlt.
    rewrite <- Hlen in Hlt. apply Nat.ltb_lt in Hlt. rewrite Hlt.
    specialize (Hcall s eq_refl (proj1 (Hall i s Hs))).
    set (w := call (mkWorld s (storage a))) in *.
    split; [|split]; cbn [instances storage].
    + rewrite only_length, length_insert. exact Hlen.
    + apply settled_storage_ok, Hcall.
    + intros j sj Hj. destruct (decide (j = i)) as [->|Hne].
      * rewrite list_lookup_insert_eq in Hj by (eapply lookup_lt_Some; eassumption).
        injection Hj as <-. split; [exact (proj1 Hcall)|].
        intros _. destruct w; exact Hcall.
      * rewrite list_lookup_insert_ne in Hj by congruence.
        split; [exact (proj1 (Hall j sj Hj))|].
        intros Hf. apply only_lookup in Hf. contradiction.
  - pose proof (lookup_ge_None_1 _ _ Hs) as Hge.
    rewrite <- Hlen in Hge. apply Nat.ltb_ge in Hge. rewrite Hge.
    split; [exact Hlen | split; [exact Hok | exact Hall]].
Qed.

Lemma step_settled (a : App) (f : list bool) (x : Action) :
  well_behaved x -> app_settled a f -> app_settled (step cfg a x) (step_seen f x).
Proof.
  destruct x as [|i env email password|i env email password metadata|i env];
    cbn [well_behaved step step_seen]; intros Hx Ha.
  - destruct Ha as (Hlen & Hok & Hall). rewrite mount_storage.
    split; [|split]; cbn [instances storage].
    + rewrite !length_app, Hlen. reflexivity.
    + exact Hok.
    + intros j sj Hj. apply lookup_app_Some in Hj as [Hj | [Hge Hj]].
      * split; [exact (proj1 (Hall j sj Hj))|].
        intros Hf. apply (proj2 (Hall j sj Hj)).
        rewrite lookup_app_l in Hf by (rewrite Hlen; eapply lookup_lt_Some; eassumption).
        exact Hf.
      * apply list_lookup_singleton_Some in Hj as [_ <-].
        pose proof (mount_settled (storage a) Hok) as Hm.
        split; [exact (proj1 Hm)|]. intros _.
        rewrite <- (mount_storage (storage a)) at 2.
        destruct (mount (storage a)); exact Hm.
  - destruct (isValidUTDEmail email) eqn:Hv; cbn [andb].
    + apply on_instance_settled; [exact Ha|].
      intros s _ _. apply login_settled; assumption.
    + rewrite on_instance_id; [exact Ha|].
      intros s Hs. rewrite (login_invalid _ _ _ _ _ Hv). cbn [world st ls].
      rewrite loading_down; [reflexivity|].
      exact (proj1 (proj2 (proj2 Ha) i s Hs)).
  - rewrite on_instance_id; [exact Ha|].
    intros s Hs. rewrite signup_world. cbn [st ls].
    rewrite loading_down; [reflexivity|].
    exact (proj1 (proj2 (proj2 Ha) i s Hs)).
  - apply on_instance_settled; [exact Ha|].
    intros s _ Hl. apply logout_settled. exact Hl.
Qed.

Lemma run_actions_settled (l : list Action) :
  Forall well_behaved l ->
  forall a f, app_settled a f ->
              app_settled (run_actions cfg l a) (fold_left step_seen l f).
Proof.
  induction 1 as [|x l Hx Hl IH]; intros a f Ha; cbn [run_actions fold_left].
  - exact Ha.
  - apply IH, step_settled; assumption.
Qed.

(** Mounting and signing up leave the storage alone. *)
Lemma step_storage (a : App) (x : Action) :
  writes_storage x = false -> storage (step cfg a x) = storage a.
Proof.
  destruct x as [|i env email password|i env email password metadata|i env];
    cbn [writes_storage step]; intros H; try discriminate H.
  - cbn [storage]. apply mount_storage.
  - unfold on_instance. destruct (instances a !! i) as [s|]; [|reflexivity].
    cbn [storage]. rewrite signup_world. reflexivity.
Qed.

End Steps.

Lemma empty_app_settled : app_settled empty_app [].
Proof.
  split; [reflexivity|]. split.
  - right. split; apply lookup_empty.
  - intros i s H. discriminate H.
Qed.

Lemma settled_agree (w : World) : settled w -> agree w.
Proof.
  intros [_ [(Hin & t & e & _ & _ & H) | H]]; [left | right; exact H].
  split; [exact Hin | exists t, e; exact H].
Qed.

(** The page changes the world of its instance of the hook only by the
    call of the hook it awaits. *)
Lemma handleLogin_hook (cfg : Config) (env : Backends) (p : AuthPage.State) (w : World) :
  AuthPage.hook (AuthPage.handleLogin cfg env p w)
  = if AuthPage.validateUTDEmail (AuthPage.loginEmail p)
    then world (login cfg env (AuthPage.loginEmail p) (AuthPage.loginPassword p) w)
    else w.
Proof.
  unfold AuthPage.handleLogin.
  destruct (AuthPage.validateUTDEmail _); cbn [negb]; [|reflexivity].
  cbv zeta. destruct (completion _) as [[d|e]|e]; reflexivity.
Qed.

Lemma handleSignup_hook (email_confirmed_at : Supabase.User -> option string)
    (flask_awaits_confirmation : Flask.Json -> bool)
    (cfg : Config) (env : Backends) (p : AuthPage.State) (w : World) :
  AuthPage.hook
    (AuthPage.handleSignup email_confirmed_at flask_awaits_confirmation cfg env p w)
  = if AuthPage.validateUTDEmail (AuthPage.signupEmail p)
       && String.eqb (AuthPage.signupPassword p) (AuthPage.signupConfirmPassword p)
    then world (signup cfg env (AuthPage.signupEmail p) (AuthPage.signupPassword p)
                  (Some {| Flask.meta_name := Some (AuthPage.signupName p) |}) w)
    else w.
Proof.
  unfold AuthPage.handleSignup.
  destruct (AuthPage.validateUTDEmail _); cbn [negb andb]; [|reflexivity].
  destruct (String.eqb _ _); cbn [negb]; [|reflexivity].
  cbv zeta. destruct (completion _) as [[d|e]|e];
    [destruct (AuthPage.awaits_confirmation _ _ d)|..]; reflexivity.
Qed.

(** C7, as the code has it.  The state of the hook is per instance, the
    storage is shared.  From the first load on an empty storage, and as
    long as every successful login answer of a backend carries a token
    and an email that are not empty, after every mount, login, signup
    and logout [isLoading] is false in every instance, and an instance
    that has seen the last write to the persisted session (it made it, or
    it was mounted since) agrees with the persisted session: both hold
    the same token and email of a logged-in session, or both are empty.
    The only writers of the persisted session are [login] and [logout]:
    a mount and a [signup] leave the storage as it is, and the handlers
    of the page change the world of its instance by the call of [login]
    or [signup] they await, and in no other way. *)
Theorem session_agrees_with_storage (cfg : Config) (l : list Action) :
  Forall well_behaved l ->
  (forall i s,
      instances (run_actions cfg l empty_app) !! i = Some s ->
      isLoading s = false
      /\ (seen_last_write l !! i = Some true ->
          agree (mkWorld s (storage (run_actions cfg l empty_app)))))
  /\ (forall a x, writes_storage x = false -> storage (step cfg a x) = storage a)
  /\ (forall env p w,
         AuthPage.hook (AuthPage.handleLogin cfg env p w)
         = if AuthPage.validateUTDEmail (AuthPage.loginEmail p)
           then world (login cfg env (AuthPage.loginEmail p) (AuthPage.loginPassword p) w)
           else w)
  /\ (forall email_confirmed_at flask_awaits_confirmation env p w,
         AuthPage.hook
           (AuthPage.handleSignup email_confirmed_at flask_awaits_confirmation cfg env p w)
         = (if AuthPage.validateUTDEmail (AuthPage.signupEmail p)
               && String.eqb (AuthPage.signupPassword p) (AuthPage.signupConfirmPassword p)
            then world (signup cfg env (AuthPage.signupEmail p) (AuthPage.signupPassword p)
                          (Some {| Flask.meta_name := Some (AuthPage.signupName p) |}) w)
            else w)
         /\ ls (AuthPage.hook
                  (AuthPage.handleSignup email_confirmed_at flask_awaits_confirmation
                     cfg env p w)) = ls w).
Proof.
  intros Hl.
  pose proof (run_actions_settled cfg l Hl empty_app [] empty_app_settled)
    as (_ & _ & Hall).
  split; [|split; [apply step_storage | split; [apply handleLogin_hook|]]].
  - intros i s Hs. destruct (Hall i s Hs) as [Hload Hset].
    split; [exact Hload|]. intros Hf. apply settled_agree, Hset, Hf.
  - intros eca fac env p w. split; [apply handleSignup_hook|].
    rewrite handleSignup_hook.
    destruct (_ && _); [rewrite signup_world|]; reflexivity.
Qed.

Lemma sample_env_nonempty :
  login_answers_nonempty
    (sample_env flask_down
       (Supabase.Resolves (supabase_data (Some "student@utdallas.edu") "abc") None)).
Proof.
  split.
  - intros url init r d H. discriminate H.
  - intros email password d u s H Hu Hs. injection H as <-.
    injection Hu as <-. injection Hs as <-.
    split; [discriminate|]. eexists. split; [reflexivity | discriminate].
Defined.

Lemma session_agrees_with_storage_witness :
  let env := sample_env flask_down
               (Supabase.Resolves (supabase_data (Some "student@utdallas.edu") "abc") None) in
  let l := [Mount; Mount; Login 1 env "student@utdallas.edu" "pw"; Mount;
            Signup 0 env "other@utdallas.edu" "pw" None] in
  let s := mkAuthState true true "student@utdallas.edu" false
             (Some (EmailUser "student@utdallas.edu")) (Some (Js.Str "abc")) in
  Forall well_behaved l
  /\ seen_last_write l = [false; true; true]
  /\ instances (run_actions supabase_only l empty_app) !! 2%nat = Some s
  /\ agree (mkWorld s (storage (run_actions supabase_only l empty_app))).
Proof.
  cbv zeta.
  assert (H : Forall well_behaved
                [Mount; Mount;
                 Login 1 (sample_env flask_down
                            (Supabase.Resolves
                               (supabase_data (Some "student@utdallas.edu") "abc") None))
                   "student@utdallas.edu" "pw"; Mount;
                 Signup 0 (sample_env flask_down
                            (Supabase.Resolves
                               (supabase_data (Some "student@utdallas.edu") "abc") None))
                   "other@utdallas.edu" "pw" None]).
  { do 2 (constructor; [exact I|]). constructor; [exact sample_env_nonempty|].
    do 2 (constructor; [exact I|]). constructor. }
  assert (Hf : seen_last_write
                [Mount; Mount;
                 Login 1 (sample_env flask_down
                            (Supabase.Resolves
                               (supabase_data (Some "student@utdallas.edu") "abc") None))
                   "student@utdallas.edu" "pw"; Mount;
                 Signup 0 (sample_env flask_down
                            (Supabase.Resolves
                               (supabase_data (Some "student@utdallas.edu") "abc") None))
                   "other@utdallas.edu" "pw" None] = [false; true; true])
    by (vm_compute; reflexivity).
  assert (Hs : instances (run_actions supabase_only
                [Mount; Mount;
                 Login 1 (sample_env flask_down
                            (Supabase.Resolves
                               (supabase_data (Some "student@utdallas.edu") "abc") None))
                   "student@utdallas.edu" "pw"; Mount;
                 Signup 0 (sample_env flask_down
                            (Supabase.Resolves
                               (supabase_data (Some "student@utdallas.edu") "abc") None))
                   "other@utdallas.edu" "pw" None] empty_app) !! 2%nat
               = Some (mkAuthState true true "student@utdallas.edu" false
                         (Some (EmailUser "student@utdallas.edu")) (Some (Js.Str "abc"))))
    by (vm_compute; reflexivity).
  split; [exact H|]. split; [exact Hf|]. split; [exact Hs|].
  apply (proj2 (proj1 (session_agrees_with_storage supabase_only _ H) 2%nat _ Hs)).
  rewrite Hf. reflexivity.
Defined.

(** C7 as stated fails, in two ways.  The state of the hook is per
    instance: with two instances mounted, a login on the second writes
    the token and the email to the storage, and the first has [isLoading]
    false and holds no session.  And a successful login can store an
    empty email: Supabase answers with a user without email, [login]
    stores the token and the empty string, and an instance mounted after
    that finds the email falsy and restores nothing: [isLoading] is
    false, its session is empty, and the token is still stored. *)
Lemma stale_instance_breaks_agreement :
  let env := sample_env flask_down
               (Supabase.Resolves (supabase_data (Some "student@utdallas.edu") "abc") None) in
  let a := run_actions supabase_only
             [Mount; Mount; Login 1 env "student@utdallas.edu" "pw"] empty_app in
  let env' := sample_env flask_down (Supabase.Resolves (supabase_data None "abc") None) in
  let b := run_actions supabase_only
             [Mount; Login 0 env' "student@utdallas.edu" "pw"; Mount] empty_app in
  let empty := mkAuthState false false "" false None None in
  (login_answers_nonempty env
   /\ instances a !! 0%nat = Some empty
   /\ storage a !! TOKEN_KEY = Some "abc"
   /\ storage a !! EMAIL_KEY = Some "student@utdallas.edu"
   /\ ~ agree (mkWorld empty (storage a)))
  /\ (instances b !! 1%nat = Some empty
      /\ storage b !! TOKEN_KEY = Some "abc"
      /\ storage b !! EMAIL_KEY = Some ""
      /\ ~ agree (mkWorld empty (storage b))).
Proof.
  cbv zeta. split; [split; [exact sample_env_nonempty|]|].
  all: repeat split; try (vm_compute; reflexivity).
  all: intros [[H _] | [_ [H _]]]; vm_compute in H; discriminate H.
Qed.

(** ** The effect log is faithful *)

(** The world a call ends in is the world it started in with the effects
    of the call replayed, in order. *)
Lemma restore_session_replay (w : World) :
  world (restore_session w) = replay (effects (restore_session w)) w.
Proof.
  unfold restore_session. m_eval. m_proj.
  destruct (ls w !! TOKEN_KEY) as [[|c t]|]; destruct (ls w !! EMAIL_KEY) as [[|c' e]|];
    cbn; destruct w; reflexivity.
Qed.

Lemma login_replay cfg env email password w :
  world (login cfg env email password w)
  = replay (effects (login cfg env email password w)) w.
Proof.
  unfold login, flask_login, supabase_login. m_run; destruct w; reflexivity.
Qed.

Lemma signup_replay cfg env email password metadata w :
  world (signup cfg env email password metadata w)
  = replay (effects (signup cfg env email password metadata w)) w.
Proof.
  unfold signup, flask_signup, supabase_signup. m_run; destruct w; reflexivity.
Qed.

Lemma logout_replay env w :
  world (logout env w) = replay (effects (logout env w)) w.
Proof. rewrite logout_run. reflexivity. Qed.

(** ** The example of the specification *)

(** Flask answers 404 with a body that is not JSON; Supabase accepts the
    password and opens a session with token "abc". *)
Example login_falls_back_on_404 :
  let not_found :=
    {| Flask.status := 404; Flask.statusText := "NOT FOUND";
       Flask.json := Flask.JsonRejects (Js.mkError "SyntaxError" "Unexpected token <") |} in
  let env := sample_env (flask_answers not_found)
               (Supabase.Resolves (supabase_data (Some "student@utdallas.edu") "abc") None) in
  let r := login flask_first env "student@utdallas.edu" "pw" app_start in
  List.filter is_network (effects r)
  = [login_request flask_first "student@utdallas.edu" "pw";
     ESignInWithPassword "student@utdallas.edu" "pw"]
  /\ isLoggedIn (st (world r)) = true
  /\ verifiedEmail (st (world r)) = "student@utdallas.edu"
  /\ accessToken (st (world r)) = Some "abc".
Proof. cbv zeta. repeat split; vm_compute; reflexivity. Qed.

(** The same status with a JSON body: the message is the body's [error],
    it carries no marker, and there is no fallback. *)
Example login_json_404_no_fallback :
  let env := sample_env (flask_answers (flask_error 404 "User not found"))
               (Supabase.Resolves (supabase_data (Some "student@utdallas.edu") "abc") None) in
  let r := login flask_first env "student@utdallas.edu" "pw" app_start in
  completion r = Normal (Failure (Js.new_Error "User not found"))
  /\ List.filter is_network (effects r)
     = [login_request flask_first "student@utdallas.edu" "pw"].
Proof. cbv zeta. repeat split; vm_compute; reflexivity. Qed.

(** * The rest of the hook and its callers, verified *)

(** ** Restoring the session and guarding a route *)

(** X1: on a page load the guard sends the user to the login page, once
    and with the path it was on, exactly when the storage does not hold a
    token and an email that are both non-empty; the first render, still
    loading, never redirects. *)
Theorem guard_redirects_iff_nothing_to_restore (m : gmap string string) (pathname : string) :
  guard_on_load m pathname
  = if Js.truthy (m !! TOKEN_KEY) && Js.truthy (m !! EMAIL_KEY) then []
    else [redirect_to_login pathname].
Proof.
  unfold guard_on_load, renders_on_load, mount, restore_session. m_eval. m_proj.
  destruct (m !! TOKEN_KEY) as [[|c t]|]; destruct (m !! EMAIL_KEY) as [[|c' e]|];
    reflexivity.
Qed.
(** ** Restoring what login stored *)

Lemma truthy_nonempty (s : string) : s <> "" -> Js.truthy (Some s) = true.
Proof. destruct s; [congruence | reflexivity]. Qed.

(** With answers that are strings and not empty, a successful login
    leaves the same token and email, not empty, in memory and in the
    storage. *)
Lemma login_success_restorable cfg env email password w data :
  login_answers_nonempty env ->
  completion (login cfg env email password w) = Normal (Success data) ->
  exists t e : string,
    t <> "" /\ e <> ""
    /\ accessToken (st (world (login cfg env email password w))) = Some t
    /\ verifiedEmail (st (world (login cfg env email password w))) = e
    /\ ls (world (login cfg env email password w)) !! TOKEN_KEY = Some t
    /\ ls (world (login cfg env email password w)) !! EMAIL_KEY = Some e.
Proof.
  intros [Hf Hs]. run_login; intros H; try discriminate H.
  all: first
    [ edestruct Hf as (tk & ml & Htk & Hml & Hnt & Hne); [eassumption..|];
      rewrite Htk, Hml; cbn [Js.to_string]
    | edestruct Hs as (Hnt & ml & Hm & Hne); [eassumption..|];
      rewrite Hm; cbn [Js.opt_or_else]; rewrite (or_else_nonempty _ _ Hne) ].
  all: eexists _, _; repeat split; eauto using stored_token, stored_email.
Qed.

(** X2: the round trip through the storage.  After a login that
    succeeded with a token and an email that are not empty, a page load
    restores a logged-in session with the same token and the same email,
    marks the email verified, keeps of the user only the email, and
    leaves the storage as it is; the guard lets the page through. *)
Theorem login_then_reload_restores (cfg : Config) (env : Backends)
    (email password : string) (w : World) (data : Payload) (pathname : string) :
  login_answers_nonempty env ->
  completion (login cfg env email password w) = Normal (Success data) ->
  isLoggedIn (st (mount (ls (world (login cfg env email password w))))) = true
  /\ accessToken (st (mount (ls (world (login cfg env email password w)))))
     = accessToken (st (world (login cfg env email password w)))
  /\ verifiedEmail (st (mount (ls (world (login cfg env email password w)))))
     = verifiedEmail (st (world (login cfg env email password w)))
  /\ isEmailVerified (st (mount (ls (world (login cfg env email password w))))) = true
  /\ user (st (mount (ls (world (login cfg env email password w)))))
     = Some (EmailUser (verifiedEmail (st (world (login cfg env email password w)))))
  /\ ls (mount (ls (world (login cfg env email password w))))
     = ls (world (login cfg env email password w))
  /\ guard_on_load (ls (world (login cfg env email password w))) pathname = [].
Proof.
  intros Hne H.
  destruct (login_success_restorable _ _ _ _ _ _ Hne H)
    as (t & e & Htn & Hen & Ht & He & Hst & Hse).
  rewrite (mount_restores _ _ _ Hst Hse Htn Hen), mount_storage,
    guard_redirects_iff_nothing_to_restore, Hst, Hse, !truthy_nonempty by assumption.
  rewrite Ht, He. repeat split.
Qed.

Lemma login_then_reload_restores_witness :
  let env := sample_env flask_down
               (Supabase.Resolves (supabase_data (Some "student@utdallas.edu") "abc") None) in
  let w' := world (login supabase_only env "student@utdallas.edu" "pw" app_start) in
  login_answers_nonempty env
  /\ completion (login supabase_only env "student@utdallas.edu" "pw" app_start)
     = Normal (Success (SupabaseData (supabase_data (Some "student@utdallas.edu") "abc")))
  /\ isLoggedIn (st (mount (ls w'))) = true
  /\ guard_on_load (ls w') "/events" = [].
Proof.
  cbv zeta.
  assert (H : completion (login supabase_only
                (sample_env flask_down
                   (Supabase.Resolves (supabase_data (Some "student@utdallas.edu") "abc") None))
                "student@utdallas.edu" "pw" app_start)
              = Normal (Success (SupabaseData
                  (supabase_data (Some "student@utdallas.edu") "abc"))))
    by (vm_compute; reflexivity).
  split; [exact sample_env_nonempty|]. split; [exact H|].
  destruct (login_then_reload_restores _ _ _ _ _ _ "/events" sample_env_nonempty H)
    as (H1 & _ & _ & _ & _ & _ & H7).
  split; [exact H1 | exact H7].
Defined.

(** X3: after a logout, from any world and whatever the sign-out
    answers, a page load finds nothing to restore: the session stays
    logged out and the guard sends the user to the login page with the
    path it was on. *)
Theorem reload_after_logout_redirects (env : Backends) (w : World) (pathname : string) :
  isLoggedIn (st (mount (ls (world (logout env w))))) = false
  /\ guard_on_load (ls (world (logout env w))) pathname = [redirect_to_login pathname].
Proof.
  pose proof (logout_keys_absent env w) as Ho.
  rewrite guard_redirects_iff_nothing_to_restore, (mount_empty _ Ho).
  destruct Ho as [-> _]. split; reflexivity.
Qed.

(** X4: the same after a login that failed on an email that passed the
    domain check, also from a world that was logged in: the failed attempt
    costs the session that was there. *)
Theorem reload_after_failed_login_redirects (cfg : Config) (env : Backends)
    (email password : string) (w : World) (e : Js.Error) (pathname : string) :
  isValidUTDEmail email = true ->
  completion (login cfg env email password w) = Normal (Failure e) ->
  isLoggedIn (st (mount (ls (world (login cfg env email password w))))) = false
  /\ guard_on_load (ls (world (login cfg env email password w))) pathname
     = [redirect_to_login pathname].
Proof.
  intros Hv H.
  destruct (login_failure_resets _ _ _ _ _ _ Hv H) as [_ Hl].
  rewrite guard_redirects_iff_nothing_to_restore, (mount_empty _ Hl).
  destruct Hl as [-> _]. split; reflexivity.
Qed.

Lemma reload_after_failed_login_redirects_witness :
  let env := sample_env flask_down (Supabase.Rejects invalid_credentials) in
  (isValidUTDEmail "student@utdallas.edu" = true
   /\ completion (login supabase_only env "student@utdallas.edu" "pw" logged_in_world)
      = Normal (Failure (Js.new_Error "Invalid login credentials")))
  /\ guard_on_load
       (ls (world (login supabase_only env "student@utdallas.edu" "pw" logged_in_world)))
       "/profile"
     = [redirect_to_login "/profile"].
Proof.
  cbv zeta.
  assert (H1 : isValidUTDEmail "student@utdallas.edu" = true) by (vm_compute; reflexivity).
  assert (H2 : completion (login supabase_only
                 (sample_env flask_down (Supabase.Rejects invalid_credentials))
                 "student@utdallas.edu" "pw" logged_in_world)
               = Normal (Failure (Js.new_Error "Invalid login credentials")))
    by (vm_compute; reflexivity).
  split; [split; assumption|].
  exact (proj2 (reload_after_failed_login_redirects _ _ _ _ _ _ "/profile" H1 H2)).
Defined.

(** X5: the mount effect only reads: it sends no request and writes
    nothing to the storage, so a token stored without a usable email (or
    the reverse) is neither restored nor removed; the session comes up
    logged in exactly when both stored values are non-empty, and
    [isLoading] is false afterwards. *)
Theorem restore_only_reads (m : gmap string string) :
  ls (mount m) = m
  /\ List.filter (fun e => is_network e || is_storage_write e)
       (effects (restore_session (mkWorld initial_state m))) = []
  /\ isLoggedIn (st (mount m)) = Js.truthy (m !! TOKEN_KEY) && Js.truthy (m !! EMAIL_KEY)
  /\ isLoading (st (mount m)) = false.
Proof.
  unfold mount, restore_session. m_eval. m_proj.
  destruct (m !! TOKEN_KEY) as [[|c t]|]; destruct (m !! EMAIL_KEY) as [[|c' e]|];
    repeat split.
Qed.
(** ** More on login, signup and logout *)

(** X6: no exception escapes [login] or [signup]: each returns a result
    on every path, and [isLoading] is false when it does. *)
Theorem login_signup_always_return (cfg : Config) (env : Backends)
    (email password : string) (metadata : option Flask.Metadata) (w : World) :
  (exists result, completion (login cfg env email password w) = Normal result)
  /\ isLoading (st (world (login cfg env email password w))) = false
  /\ (exists result, completion (signup cfg env email password metadata w) = Normal result)
  /\ isLoading (st (world (signup cfg env email password metadata w))) = false.
Proof.
  split; [apply login_returns|]. split.
  - run_login; reflexivity.
  - split; [apply signup_returns|]. rewrite signup_world. reflexivity.
Qed.

(** X7: when [login] succeeds against Supabase, the payload is what
    Supabase answered, with a user and a session; the session in memory
    holds that user, the user's email (or the empty string when it has
    none) and the session's token, and the two storage keys hold the same
    token and email. *)
Theorem secondary_login_success_session (cfg : Config) (env : Backends)
    (email password : string) (w : World) (data : Supabase.AuthData) :
  completion (login cfg env email password w) = Normal (Success (SupabaseData data)) ->
  exists u s,
    signInWithPassword env email password = Supabase.Resolves data None
    /\ Supabase.user data = Some u /\ Supabase.session data = Some s
    /\ isLoggedIn (st (world (login cfg env email password w))) = true
    /\ isEmailVerified (st (world (login cfg env email password w))) = true
    /\ user (st (world (login cfg env email password w))) = Some (SupabaseUser u)
    /\ verifiedEmail (st (world (login cfg env email password w)))
       = Js.opt_or_else (Supabase.email u) ""
    /\ accessToken (st (world (login cfg env email password w)))
       = Some (Supabase.access_token s)
    /\ ls (world (login cfg env email password w)) !! TOKEN_KEY
       = Some (Supabase.access_token s)
    /\ ls (world (login cfg env email password w)) !! EMAIL_KEY
       = Some (Js.opt_or_else (Supabase.email u) "").
Proof.
  run_login; intros H; try discriminate H.
  all: injection H as <-; eexists _, _.
  all: repeat split; eauto using stored_token, stored_email.
Qed.

Lemma secondary_login_success_session_witness :
  let env := sample_env flask_down (Supabase.Resolves (supabase_data None "abc") None) in
  let r := login flask_first env "student@utdallas.edu" "pw" app_start in
  completion r = Normal (Success (SupabaseData (supabase_data None "abc")))
  /\ exists u s,
       signInWithPassword env "student@utdallas.edu" "pw"
       = Supabase.Resolves (supabase_data None "abc") None
       /\ Supabase.user (supabase_data None "abc") = Some u
       /\ Supabase.session (supabase_data None "abc") = Some s
       /\ isLoggedIn (st (world r)) = true.
Proof.
  cbv zeta.
  assert (H : completion (login flask_first
                (sample_env flask_down (Supabase.Resolves (supabase_data None "abc") None))
                "student@utdallas.edu" "pw" app_start)
              = Normal (Success (SupabaseData (supabase_data None "abc"))))
    by (vm_compute; reflexivity).
  split; [exact H|].
  destruct (secondary_login_success_session _ _ _ _ _ _ H)
    as (u & s & H1 & H2 & H3 & H4 & _).
  exists u, s. auto.
Defined.

(** X8: on an email that passed the domain check, the session is logged
    in after [login] exactly when [login] returned a success. *)
Theorem logged_in_iff_success (cfg : Config) (env : Backends)
    (email password : string) (w : World) :
  isValidUTDEmail email = true ->
  exists result,
    completion (login cfg env email password w) = Normal result
    /\ isLoggedIn (st (world (login cfg env email password w))) = is_success result.
Proof.
  intros Hv. run_login; try congruence; eexists; split; reflexivity.
Qed.

Lemma logged_in_iff_success_witness :
  isValidUTDEmail "student@utdallas.edu" = true
  /\ exists result,
       completion (login supabase_only
                     (sample_env flask_down (Supabase.Rejects invalid_credentials))
                     "student@utdallas.edu" "pw" logged_in_world) = Normal result
       /\ isLoggedIn (st (world (login supabase_only
                     (sample_env flask_down (Supabase.Rejects invalid_credentials))
                     "student@utdallas.edu" "pw" logged_in_world))) = is_success result.
Proof.
  assert (H : isValidUTDEmail "student@utdallas.edu" = true) by (vm_compute; reflexivity).
  split; [exact H|].
  exact (logged_in_iff_success supabase_only
           (sample_env flask_down (Supabase.Rejects invalid_credentials))
           "student@utdallas.edu" "pw" logged_in_world H).
Defined.

(** X9: a call of [login] or [signup] sends at most one request to each
    backend, and the one to Flask before the one to Supabase: there is no
    retry and no further fallback. *)
Theorem at_most_one_request_per_backend (cfg : Config) (env : Backends)
    (email password : string) (metadata : option Flask.Metadata) (w : World) :
  (List.filter is_network (effects (login cfg env email password w))
   = (primary_requests (effects (login cfg env email password w))
      ++ secondary_requests (effects (login cfg env email password w)))%list
   /\ length (primary_requests (effects (login cfg env email password w))) <= 1
   /\ length (secondary_requests (effects (login cfg env email password w))) <= 1)
  /\ (List.filter is_network (effects (signup cfg env email password metadata w))
      = (primary_requests (effects (signup cfg env email password metadata w))
         ++ secondary_requests (effects (signup cfg env email password metadata w)))%list
      /\ length (primary_requests (effects (signup cfg env email password metadata w))) <= 1
      /\ length (secondary_requests (effects (signup cfg env email password metadata w))) <= 1).
Proof.
  split.
  - run_login; cbn; repeat split; lia.
  - run_signup; cbn; repeat split; lia.
Qed.

(** X10: the "Backend server unreachable" toast is shown exactly when the
    call falls back, that is, when it sent a request to Flask and then one
    to Supabase; no other toast comes from [login] or [signup]. *)
Theorem toast_iff_fallback (cfg : Config) (env : Backends)
    (email password : string) (metadata : option Flask.Metadata) (w : World) :
  List.filter is_toast (effects (login cfg env email password w))
  = match primary_requests (effects (login cfg env email password w)),
          secondary_requests (effects (login cfg env email password w)) with
    | _ :: _, _ :: _ => [fallback_toast]
    | _, _ => []
    end
  /\ List.filter is_toast (effects (signup cfg env email password metadata w))
     = match primary_requests (effects (signup cfg env email password metadata w)),
             secondary_requests (effects (signup cfg env email password metadata w)) with
       | _ :: _, _ :: _ => [fallback_toast]
       | _, _ => []
       end.
Proof.
  split; [run_login | run_signup]; reflexivity.
Qed.



(** X12: a failed [login] leaves [isEmailVerified] as it was: the outer
    [catch] resets the four other session fields but not this one, which
    [logout] does reset. *)
Theorem failed_login_keeps_email_verified (cfg : Config) (env : Backends)
    (email password : string) (w : World) (e : Js.Error) :
  completion (login cfg env email password w) = Normal (Failure e) ->
  isEmailVerified (st (world (login cfg env email password w))) = isEmailVerified (st w)
  /\ isEmailVerified (st (world (logout env w))) = false.
Proof.
  intros H. split; [|rewrite logout_run; reflexivity].
  revert H. run_login; intros H; try discriminate H; reflexivity.
Qed.

Lemma failed_login_keeps_email_verified_witness :
  let env := sample_env flask_down (Supabase.Rejects invalid_credentials) in
  let r := login supabase_only env "student@utdallas.edu" "pw" logged_in_world in
  completion r = Normal (Failure (Js.new_Error "Invalid login credentials"))
  /\ isLoggedIn (st (world r)) = false
  /\ isEmailVerified (st (world r)) = true.
Proof.
  cbv zeta.
  assert (H : completion (login supabase_only
                (sample_env flask_down (Supabase.Rejects invalid_credentials))
                "student@utdallas.edu" "pw" logged_in_world)
              = Normal (Failure (Js.new_Error "Invalid login credentials")))
    by (vm_compute; reflexivity).
  split; [exact H|]. split; [vm_compute; reflexivity|].
  rewrite (proj1 (failed_login_keeps_email_verified _ _ _ _ _ _ H)). reflexivity.
Defined.

(** X13: the hook owns two storage keys and no other: whatever [login],
    [signup], [logout] and the mount effect do, every other key of
    [localStorage] keeps its value. *)
Theorem other_storage_keys_untouched (cfg : Config) (env : Backends)
    (email password : string) (metadata : option Flask.Metadata) (w : World)
    (key : string) :
  key <> TOKEN_KEY -> key <> EMAIL_KEY ->
  ls (world (login cfg env email password w)) !! key = ls w !! key
  /\ ls (world (signup cfg env email password metadata w)) !! key = ls w !! key
  /\ ls (world (logout env w)) !! key = ls w !! key
  /\ ls (mount (ls w)) !! key = ls w !! key.
Proof.
  intros Ht He. split; [|split; [|split]].
  - run_login; rewrite ?lookup_insert_ne, ?lookup_delete_ne by congruence; reflexivity.
  - rewrite signup_world. reflexivity.
  - rewrite logout_run. cbn [world ls].
    rewrite !lookup_delete_ne by congruence. reflexivity.
  - rewrite mount_storage. reflexivity.
Qed.

Lemma other_storage_keys_untouched_witness :
  let env := sample_env flask_down (Supabase.Rejects invalid_credentials) in
  let w := mkWorld initial_state (<["theme" := "dark"]> ∅) in
  ("theme" <> TOKEN_KEY /\ "theme" <> EMAIL_KEY)
  /\ ls (world (login supabase_only env "student@utdallas.edu" "pw" w)) !! "theme"
     = ls w !! "theme".
Proof.
  cbv zeta.
  assert (H1 : "theme" <> TOKEN_KEY) by discriminate.
  assert (H2 : "theme" <> EMAIL_KEY) by discriminate.
  split; [split; assumption|].
  exact (proj1 (other_storage_keys_untouched supabase_only
                  (sample_env flask_down (Supabase.Rejects invalid_credentials))
                  "student@utdallas.edu" "pw" None
                  (mkWorld initial_state (<["theme" := "dark"]> ∅)) "theme" H1 H2)).
Defined.

(** ** The login page *)

Lemma or_else_default_nonempty (s d : string) : nonempty d = true -> nonempty (Js.or_else s d) = true.
Proof. destruct s; [auto | reflexivity]. Qed.

Lemma filter_navigation_hooks (l : list Effect) (tail : list AuthPage.UiEffect) :
  AuthPage.navigations (map AuthPage.Hook l ++ tail) = AuthPage.navigations tail.
Proof.
  unfold AuthPage.navigations. induction l as [|e l IH]; [reflexivity | exact IH].
Qed.

(** X14: the page checks the email before it calls the hook: with an
    email that fails the domain check [handleLogin] calls nothing (no
    effect at all, the hook's world untouched, [isLoading] not raised),
    clears the general error and shows the email error. *)
Theorem handleLogin_rejects_locally (cfg : Config) (env : Backends)
    (p : AuthPage.State) (w : World) :
  AuthPage.validateUTDEmail (AuthPage.loginEmail p) = false ->
  AuthPage.hook (AuthPage.handleLogin cfg env p w) = w
  /\ AuthPage.ui (AuthPage.handleLogin cfg env p w) = []
  /\ AuthPage.isLoading (AuthPage.page (AuthPage.handleLogin cfg env p w))
     = AuthPage.isLoading p
  /\ AuthPage.errorMessage (AuthPage.page (AuthPage.handleLogin cfg env p w)) = ""
  /\ AuthPage.loginEmailError (AuthPage.page (AuthPage.handleLogin cfg env p w))
     = "Please use your UTD email (@utdallas.edu)".
Proof.
  intros H. unfold AuthPage.handleLogin. rewrite H. repeat split.
Qed.

Lemma handleLogin_rejects_locally_witness :
  let p := AuthPage.setLoginEmail "student@gmail.com" AuthPage.initial in
  let env := sample_env flask_down (Supabase.Rejects invalid_credentials) in
  AuthPage.validateUTDEmail (AuthPage.loginEmail p) = false
  /\ AuthPage.ui (AuthPage.handleLogin supabase_only env p logged_in_world) = [].
Proof.
  cbv zeta.
  assert (H : AuthPage.validateUTDEmail
                (AuthPage.loginEmail (AuthPage.setLoginEmail "student@gmail.com" AuthPage.initial))
              = false) by (vm_compute; reflexivity).
  split; [exact H|].
  exact (proj1 (proj2 (handleLogin_rejects_locally supabase_only
                         (sample_env flask_down (Supabase.Rejects invalid_credentials))
                         _ logged_in_world H))).
Defined.

(** What [handleLogin] does once the email passed the page's check: it
    awaits the hook's [login], and goes to "/events" on a success only. *)
Lemma handleLogin_after_check (cfg : Config) (env : Backends)
    (p : AuthPage.State) (w : World) :
  AuthPage.validateUTDEmail (AuthPage.loginEmail p) = true ->
  exists result,
    completion (login cfg env (AuthPage.loginEmail p) (AuthPage.loginPassword p) w)
    = Normal result
    /\ AuthPage.hook (AuthPage.handleLogin cfg env p w)
       = world (login cfg env (AuthPage.loginEmail p) (AuthPage.loginPassword p) w)
    /\ AuthPage.navigations (AuthPage.ui (AuthPage.handleLogin cfg env p w))
       = (if is_success result then [AuthPage.Navigate "/events"] else []).
Proof.
  intros H.
  destruct (login_returns cfg env (AuthPage.loginEmail p) (AuthPage.loginPassword p) w)
    as [result Hr].
  exists result. split; [exact Hr|].
  unfold AuthPage.handleLogin. rewrite H. cbv zeta. cbn [negb]. rewrite Hr.
  destruct result as [data|error]; cbn [is_success AuthPage.hook AuthPage.ui];
    rewrite filter_navigation_hooks; split; reflexivity.
Qed.

(** X15: with an email that passes the check, [handleLogin] awaits one
    call of the hook's [login] on the typed email and password; it goes to
    "/events" exactly when that call succeeded, it shows an error message
    (never an empty one) exactly when it failed, and it ends with
    [isLoading] false either way. *)
Theorem handleLogin_navigates_iff_success (cfg : Config) (env : Backends)
    (p : AuthPage.State) (w : World) :
  AuthPage.validateUTDEmail (AuthPage.loginEmail p) = true ->
  exists result,
    completion (login cfg env (AuthPage.loginEmail p) (AuthPage.loginPassword p) w)
    = Normal result
    /\ AuthPage.hook (AuthPage.handleLogin cfg env p w)
       = world (login cfg env (AuthPage.loginEmail p) (AuthPage.loginPassword p) w)
    /\ AuthPage.navigations (AuthPage.ui (AuthPage.handleLogin cfg env p w))
       = (if is_success result then [AuthPage.Navigate "/events"] else [])
    /\ nonempty (AuthPage.errorMessage (AuthPage.page (AuthPage.handleLogin cfg env p w)))
       = negb (is_success result)
    /\ AuthPage.isLoading (AuthPage.page (AuthPage.handleLogin cfg env p w)) = false.
Proof.
  intros H.
  destruct (handleLogin_after_check cfg env p w H) as (result & Hr & Hh & Hn).
  exists result. split; [exact Hr|]. split; [exact Hh|]. split; [exact Hn|].
  unfold AuthPage.handleLogin. rewrite H. cbv zeta. cbn [negb]. rewrite Hr.
  destruct result as [data|error]; cbn [is_success negb AuthPage.page].
  - split; reflexivity.
  - split; [|reflexivity].
    cbn. apply or_else_default_nonempty. reflexivity.
Qed.

Lemma handleLogin_navigates_iff_success_witness :
  let p := AuthPage.setLoginEmail "student@utdallas.edu" AuthPage.initial in
  let env := sample_env flask_down
               (Supabase.Resolves (supabase_data (Some "student@utdallas.edu") "abc") None) in
  AuthPage.validateUTDEmail (AuthPage.loginEmail p) = true
  /\ exists result,
       completion (login supabase_only env (AuthPage.loginEmail p) (AuthPage.loginPassword p)
                     app_start) = Normal result
       /\ AuthPage.hook (AuthPage.handleLogin supabase_only env p app_start)
          = world (login supabase_only env (AuthPage.loginEmail p) (AuthPage.loginPassword p)
                     app_start).
Proof.
  cbv zeta.
  assert (H : AuthPage.validateUTDEmail
                (AuthPage.loginEmail
                   (AuthPage.setLoginEmail "student@utdallas.edu" AuthPage.initial)) = true)
    by (vm_compute; reflexivity).
  split; [exact H|].
  destruct (handleLogin_navigates_iff_success supabase_only
              (sample_env flask_down
                 (Supabase.Resolves (supabase_data (Some "student@utdallas.edu") "abc") None))
              _ app_start H) as (result & H1 & H2 & _).
  exists result. split; assumption.
Defined.

Lemma in_navigations (l : list AuthPage.UiEffect) (path : string) :
  In (AuthPage.Navigate path) l -> In (AuthPage.Navigate path) (AuthPage.navigations l).
Proof. intros H. apply filter_In. split; [exact H | reflexivity]. Qed.

(** X16: from the login form to the protected page.  When [handleLogin]
    goes to "/events" and the backend's token and email are not empty, the
    guard of the page that mounts there, on a fresh instance of the hook,
    finds the stored session and does not send the user back. *)
Theorem handleLogin_navigation_passes_guard (cfg : Config) (env : Backends)
    (p : AuthPage.State) (w : World) :
  login_answers_nonempty env ->
  In (AuthPage.Navigate "/events") (AuthPage.ui (AuthPage.handleLogin cfg env p w)) ->
  guard_on_load (ls (AuthPage.hook (AuthPage.handleLogin cfg env p w))) "/events" = []
  /\ isLoggedIn (st (mount (ls (AuthPage.hook (AuthPage.handleLogin cfg env p w))))) = true.
Proof.
  intros Hne Hnav. apply in_navigations in Hnav. revert Hnav.
  destruct (AuthPage.validateUTDEmail (AuthPage.loginEmail p)) eqn:Hv.
  - destruct (handleLogin_after_check cfg env p w Hv)
      as (result & Hr & Hh & Hn).
    rewrite Hn, Hh. destruct result as [data|error]; [intros _ | intros []].
    destruct (login_success_restorable _ _ _ _ _ _ Hne Hr)
      as (t & e & Htn & Hen & _ & _ & Hst & Hse).
    rewrite guard_redirects_iff_nothing_to_restore, Hst, Hse, !truthy_nonempty by assumption.
    rewrite (mount_restores _ _ _ Hst Hse Htn Hen). split; reflexivity.
  - unfold AuthPage.handleLogin. rewrite Hv. intros [].
Qed.

Lemma handleLogin_navigation_passes_guard_witness :
  let p := AuthPage.setLoginEmail "student@utdallas.edu" AuthPage.initial in
  let env := sample_env flask_down
               (Supabase.Resolves (supabase_data (Some "student@utdallas.edu") "abc") None) in
  (login_answers_nonempty env
   /\ In (AuthPage.Navigate "/events")
        (AuthPage.ui (AuthPage.handleLogin supabase_only env p app_start)))
  /\ guard_on_load (ls (AuthPage.hook (AuthPage.handleLogin supabase_only env p app_start)))
       "/events" = [].
Proof.
  cbv zeta.
  assert (H : In (AuthPage.Navigate "/events")
                (AuthPage.ui (AuthPage.handleLogin supabase_only
                   (sample_env flask_down
                      (Supabase.Resolves (supabase_data (Some "student@utdallas.edu") "abc") None))
                   (AuthPage.setLoginEmail "student@utdallas.edu" AuthPage.initial)
                   app_start))).
  { vm_compute. repeat (first [left; reflexivity | right]). }
  split; [split; [exact sample_env_nonempty | exact H]|].
  exact (proj1 (handleLogin_navigation_passes_guard _ _ _ _ sample_env_nonempty H)).
Defined.

(** ** The signup form *)

Section SignupPage.

Variable email_confirmed_at : Supabase.User -> option string.
Variable flask_awaits_confirmation : Flask.Json -> bool.
Variables (cfg : Config) (env : Backends) (p : AuthPage.State) (w : World).

Let outcome : AuthPage.Outcome :=
  AuthPage.handleSignup email_confirmed_at flask_awaits_confirmation cfg env p w.

(** Whatever it does, [handleSignup] leaves the session and the storage
    of the page's hook as they were. *)
Lemma handleSignup_storage : 
  same_session (st w) (st (AuthPage.hook outcome)) /\ ls (AuthPage.hook outcome) = ls w.
Proof.
  unfold outcome, AuthPage.handleSignup.
  destruct (negb (AuthPage.validateUTDEmail (AuthPage.signupEmail p)));
    [split; [repeat split | reflexivity]|].
  destruct (negb (AuthPage.signupPassword p =? AuthPage.signupConfirmPassword p)%string);
    [split; [repeat split | reflexivity]|].
  cbv zeta.
  pose proof (signup_world cfg env (AuthPage.signupEmail p) (AuthPage.signupPassword p)
                (Some {| Flask.meta_name := Some (AuthPage.signupName p) |}) w) as Hw.
  destruct (completion _) as [[data|error]|e];
    [destruct (AuthPage.awaits_confirmation _ _ data)|..];
    cbn [AuthPage.hook]; rewrite Hw; (split; [repeat split | reflexivity]).
Qed.

End SignupPage.

(** X17: [handleSignup] checks the email first and the two passwords
    second, and calls the hook only when both checks pass: otherwise it has
    no effect at all outside the page, and it shows the email error (for a
    bad email, whatever the passwords) or "Passwords don't match". *)
Theorem handleSignup_rejects_locally
    (email_confirmed_at : Supabase.User -> option string)
    (flask_awaits_confirmation : Flask.Json -> bool)
    (cfg : Config) (env : Backends) (p : AuthPage.State) (w : World) :
  AuthPage.validateUTDEmail (AuthPage.signupEmail p) = false
  \/ AuthPage.signupPassword p <> AuthPage.signupConfirmPassword p ->
  AuthPage.hook (AuthPage.handleSignup email_confirmed_at flask_awaits_confirmation
                   cfg env p w) = w
  /\ AuthPage.ui (AuthPage.handleSignup email_confirmed_at flask_awaits_confirmation
                    cfg env p w) = []
  /\ AuthPage.isLoading
       (AuthPage.page (AuthPage.handleSignup email_confirmed_at flask_awaits_confirmation
                         cfg env p w))
     = AuthPage.isLoading p
  /\ if AuthPage.validateUTDEmail (AuthPage.signupEmail p) then
       AuthPage.errorMessage
         (AuthPage.page (AuthPage.handleSignup email_confirmed_at flask_awaits_confirmation
                           cfg env p w))
       = "Passwords don't match"
       /\ AuthPage.signupEmailError
            (AuthPage.page (AuthPage.handleSignup email_confirmed_at
                              flask_awaits_confirmation cfg env p w))
          = ""
     else
       AuthPage.errorMessage
         (AuthPage.page (AuthPage.handleSignup email_confirmed_at flask_awaits_confirmation
                           cfg env p w))
       = ""
       /\ AuthPage.signupEmailError
            (AuthPage.page (AuthPage.handleSignup email_confirmed_at
                              flask_awaits_confirmation cfg env p w))
          = "Please use your UTD email (@utdallas.edu)".
Proof.
  unfold AuthPage.handleSignup.
  destruct (AuthPage.validateUTDEmail (AuthPage.signupEmail p)); cbn [negb].
  - intros [H | H]; [discriminate H|].
    apply String.eqb_neq in H. rewrite H. repeat split.
  - intros _. repeat split.
Qed.

Lemma handleSignup_rejects_locally_witness :
  let p := AuthPage.mkState false "" "" "" "" "Sam" "sam@utdallas.edu" "secret1" "secret2" "" in
  let env := sample_env flask_down (Supabase.Rejects invalid_credentials) in
  (AuthPage.validateUTDEmail (AuthPage.signupEmail p) = false
   \/ AuthPage.signupPassword p <> AuthPage.signupConfirmPassword p)
  /\ AuthPage.ui (AuthPage.handleSignup (fun _ => None) (fun _ => false)
                    supabase_only env p app_start) = [].
Proof.
  cbv zeta.
  assert (H : AuthPage.validateUTDEmail (AuthPage.signupEmail
                (AuthPage.mkState false "" "" "" "" "Sam" "sam@utdallas.edu"
                   "secret1" "secret2" "")) = false
              \/ AuthPage.signupPassword
                   (AuthPage.mkState false "" "" "" "" "Sam" "sam@utdallas.edu"
                      "secret1" "secret2" "")
                 <> AuthPage.signupConfirmPassword
                      (AuthPage.mkState false "" "" "" "" "Sam" "sam@utdallas.edu"
                         "secret1" "secret2" ""))
    by (right; discriminate).
  split; [exact H|].
  exact (proj1 (proj2 (handleSignup_rejects_locally (fun _ => None) (fun _ => false)
                         supabase_only
                         (sample_env flask_down (Supabase.Rejects invalid_credentials))
                         _ app_start H))).
Defined.

(** X18: when both checks pass, [handleSignup] awaits one call of the
    hook's [signup] on the typed email and password, with the typed name
    as metadata.  On a success it goes to "/auth" when the account still
    awaits its confirmation and to "/events" otherwise; on a failure it
    goes nowhere and shows an error message that is not empty; it ends
    with [isLoading] false. *)
Theorem handleSignup_navigates_on_success
    (email_confirmed_at : Supabase.User -> option string)
    (flask_awaits_confirmation : Flask.Json -> bool)
    (cfg : Config) (env : Backends) (p : AuthPage.State) (w : World) :
  AuthPage.validateUTDEmail (AuthPage.signupEmail p) = true ->
  AuthPage.signupPassword p = AuthPage.signupConfirmPassword p ->
  exists result,
    completion (signup cfg env (AuthPage.signupEmail p) (AuthPage.signupPassword p)
                  (Some {| Flask.meta_name := Some (AuthPage.signupName p) |}) w)
    = Normal result
    /\ AuthPage.hook (AuthPage.handleSignup email_confirmed_at flask_awaits_confirmation
                        cfg env p w)
       = world (signup cfg env (AuthPage.signupEmail p) (AuthPage.signupPassword p)
                  (Some {| Flask.meta_name := Some (AuthPage.signupName p) |}) w)
    /\ AuthPage.navigations
         (AuthPage.ui (AuthPage.handleSignup email_confirmed_at flask_awaits_confirmation
                         cfg env p w))
       = match result with
         | Success data =>
             [AuthPage.Navigate
                (if AuthPage.awaits_confirmation email_confirmed_at
                      flask_awaits_confirmation data
                 then "/auth" else "/events")]
         | Failure _ => []
         end
    /\ nonempty (AuthPage.errorMessage
                   (AuthPage.page (AuthPage.handleSignup email_confirmed_at
                                     flask_awaits_confirmation cfg env p w)))
       = negb (is_success result)
    /\ AuthPage.isLoading
         (AuthPage.page (AuthPage.handleSignup email_confirmed_at
                           flask_awaits_confirmation cfg env p w))
       = false.
Proof.
  intros Hv Hp.
  destruct (signup_returns cfg env (AuthPage.signupEmail p) (AuthPage.signupPassword p)
              (Some {| Flask.meta_name := Some (AuthPage.signupName p) |}) w)
    as [result Hr].
  exists result. split; [exact Hr|].
  unfold AuthPage.handleSignup. rewrite Hv, Hp, String.eqb_refl.
  cbv zeta. cbn [negb]. rewrite <- Hp, Hr.
  destruct result as [data|error]; cbn [is_success negb].
  - destruct (AuthPage.awaits_confirmation _ _ data);
      cbn [AuthPage.hook AuthPage.ui AuthPage.page];
      rewrite filter_navigation_hooks; repeat split.
  - cbn [AuthPage.hook AuthPage.ui AuthPage.page].
    rewrite filter_navigation_hooks. repeat split.
    cbn. apply or_else_default_nonempty. reflexivity.
Qed.

Lemma handleSignup_navigates_on_success_witness :
  let p := AuthPage.mkState false "" "" "" "" "Sam" "sam@utdallas.edu" "secret" "secret" "" in
  let env := sample_env flask_down
               (Supabase.Resolves (supabase_data (Some "sam@utdallas.edu") "abc") None) in
  (AuthPage.validateUTDEmail (AuthPage.signupEmail p) = true
   /\ AuthPage.signupPassword p = AuthPage.signupConfirmPassword p)
  /\ exists result,
       completion (signup supabase_only env (AuthPage.signupEmail p) (AuthPage.signupPassword p)
                     (Some {| Flask.meta_name := Some (AuthPage.signupName p) |}) app_start)
       = Normal result.
Proof.
  cbv zeta.
  assert (H1 : AuthPage.validateUTDEmail (AuthPage.signupEmail
                 (AuthPage.mkState false "" "" "" "" "Sam" "sam@utdallas.edu"
                    "secret" "secret" "")) = true) by (vm_compute; reflexivity).
  assert (H2 : AuthPage.signupPassword
                 (AuthPage.mkState false "" "" "" "" "Sam" "sam@utdallas.edu"
                    "secret" "secret" "")
               = AuthPage.signupConfirmPassword
                   (AuthPage.mkState false "" "" "" "" "Sam" "sam@utdallas.edu"
                      "secret" "secret" "")) by reflexivity.
  split; [split; assumption|].
  destruct (handleSignup_navigates_on_success (fun _ => None) (fun _ => false)
              supabase_only
              (sample_env flask_down
                 (Supabase.Resolves (supabase_data (Some "sam@utdallas.edu") "abc") None))
              _ app_start H1 H2) as (result & Hr & _).
  exists result. exact Hr.
Defined.

(** X19: signing up opens no session: whatever [handleSignup] shows and
    wherever it goes, the session of the page's hook and the storage are
    what they were, so the guard of a page that loads afterwards decides as
    it would have before: a user who was logged out and is sent to
    "/events" after "Account created!" is sent on to the login page. *)
Theorem handleSignup_opens_no_session
    (email_confirmed_at : Supabase.User -> option string)
    (flask_awaits_confirmation : Flask.Json -> bool)
    (cfg : Config) (env : Backends) (p : AuthPage.State) (w : World) (pathname : string) :
  same_session (st w)
    (st (AuthPage.hook (AuthPage.handleSignup email_confirmed_at flask_awaits_confirmation
                          cfg env p w)))
  /\ ls (AuthPage.hook (AuthPage.handleSignup email_confirmed_at flask_awaits_confirmation
                          cfg env p w)) = ls w
  /\ guard_on_load
       (ls (AuthPage.hook (AuthPage.handleSignup email_confirmed_at
                             flask_awaits_confirmation cfg env p w))) pathname
     = guard_on_load (ls w) pathname.
Proof.
  destruct (handleSignup_storage email_confirmed_at flask_awaits_confirmation cfg env p w)
    as [Hs Hl].
  split; [exact Hs|]. split; [exact Hl|]. cbv zeta in Hl. rewrite Hl. reflexivity.
Qed.

(** ** Lower case and substrings *)

Section LowerCase.

Lemma lower_ascii_idemp (c : ascii) : Js.lower_ascii (Js.lower_ascii c) = Js.lower_ascii c.
Proof. destruct c as [[] [] [] [] [] [] [] []]; vm_compute; reflexivity. Qed.

Lemma toLowerCase_idemp (s : string) : Js.toLowerCase (Js.toLowerCase s) = Js.toLowerCase s.
Proof.
  induction s as [|c s IH]; [reflexivity|].
  cbn [Js.toLowerCase]. rewrite lower_ascii_idemp, IH. reflexivity.
Qed.

Lemma toLowerCase_app (a b : string) :
  Js.toLowerCase (a +:+ b) = Js.toLowerCase a +:+ Js.toLowerCase b.
Proof.
  induction a as [|c a IH]; [reflexivity|].
  rewrite append_cons. cbn [Js.toLowerCase]. rewrite IH, append_cons. reflexivity.
Qed.

Lemma nonempty_false (s : string) : nonempty s = false <-> s = "".
Proof. destruct s; cbn; split; congruence. Qed.

Lemma append_assoc (a b c : string) : (a +:+ b) +:+ c = a +:+ (b +:+ c).
Proof.
  induction a as [|x a IH]; [reflexivity|].
  rewrite !append_cons, IH. reflexivity.
Qed.

Lemma contains_trans (s t u : string) : contains s t -> contains t u -> contains s u.
Proof.
  intros (a & b & ->) (c & d & ->). exists (a +:+ c), (d +:+ b).
  rewrite !append_assoc. reflexivity.
Qed.

Lemma contains_empty (s : string) : contains "" s -> s = "".
Proof.
  intros (a & b & H). destruct a as [|c a]; [|rewrite append_cons in H; discriminate H].
  destruct s as [|c s]; [reflexivity|].
  rewrite append_nil, append_cons in H. discriminate H.
Qed.

End LowerCase.

(** On strings of ASCII characters the lowering is [Js.toLowerCase]. *)
Lemma ascii_lowering_keeps_empty_apart : keeps_empty_apart Js.toLowerCase.
Proof.
  intros s. destruct s; cbn [Js.toLowerCase]; split; intros H;
    first [reflexivity | discriminate H].
Defined.

(** ** The filters of the two pages *)

Section Filters.

Variable toLowerCase : string -> string.

(** The title test of both pages: the query is empty, or its lower-case
    form occurs in the lower-case form of the title. *)
Lemma title_test_spec (title searchQuery : string) :
  nonempty searchQuery
  && negb (Js.includes (toLowerCase title) (toLowerCase searchQuery)) = false
  <-> searchQuery = "" \/ contains (toLowerCase title) (toLowerCase searchQuery).
Proof.
  rewrite andb_false_iff, negb_false_iff, nonempty_false, includes_spec. reflexivity.
Qed.

Lemma category_test_spec (filter category : string) :
  negb (filter =? "all")%string
  && negb (toLowerCase category =? toLowerCase filter)%string = false
  <-> filter = "all" \/ toLowerCase category = toLowerCase filter.
Proof.
  rewrite andb_false_iff, !negb_false_iff, !String.eqb_eq. reflexivity.
Qed.

Lemma keeps_spec (filter searchQuery : string) (event : Events.Event) :
  Events.keeps toLowerCase filter searchQuery event = true
  <-> (filter = "all"
       \/ toLowerCase (Events.category event) = toLowerCase filter)
      /\ (searchQuery = ""
          \/ contains (toLowerCase (Events.title event)) (toLowerCase searchQuery)).
Proof.
  rewrite <- category_test_spec, <- title_test_spec. unfold Events.keeps.
  destruct (negb (filter =? "all")%string && _); [split; [discriminate | intros [H _]; discriminate H]|].
  destruct (nonempty searchQuery && _); [split; [discriminate | intros [_ H]; discriminate H]|].
  split; auto.
Qed.

Lemma filter_all (A : Type) (f : A -> bool) (l : list A) :
  (forall x, f x = true) -> List.filter f l = l.
Proof.
  intros H. induction l as [|x l IH]; [reflexivity|].
  cbn [List.filter]. rewrite H, IH. reflexivity.
Qed.

(** Two queries with the same lower-case form are both empty or both
    not. *)
Lemma same_lower_nonempty (q q' : string) :
  keeps_empty_apart toLowerCase ->
  toLowerCase q' = toLowerCase q -> nonempty q' = nonempty q.
Proof.
  intros He Hq. destruct (nonempty q) eqn:Hn.
  - destruct (nonempty q') eqn:Hn'; [reflexivity|].
    apply nonempty_false in Hn'. subst q'.
    symmetry in Hq. rewrite (proj2 (He "") eq_refl) in Hq.
    apply (proj1 (He q)) in Hq. subst q. discriminate Hn.
  - apply nonempty_false in Hn. subst q. apply nonempty_false.
    rewrite (proj2 (He "") eq_refl) in Hq. exact (proj1 (He q') Hq).
Qed.

End Filters.

(** ** The events page *)

(** X20: what the events page lists.  An event is listed exactly when it
    is one of the events, the choice is "all" or the lower-case form of
    its category is that of the choice, and the query is empty or its
    lower-case form occurs in that of the title.  With "all" and an empty
    query, as after "Clear filters", the list is the whole list, in its
    order. *)
Theorem filteredEvents_lists (toLowerCase : string -> string)
    (filter searchQuery : string)
    (allEvents : list Events.Event) (event : Events.Event) :
  (In event (Events.filteredEvents toLowerCase filter searchQuery allEvents)
   <-> In event allEvents
       /\ (filter = "all"
           \/ toLowerCase (Events.category event) = toLowerCase filter)
       /\ (searchQuery = ""
           \/ contains (toLowerCase (Events.title event)) (toLowerCase searchQuery)))
  /\ Events.filteredEvents toLowerCase "all" "" allEvents = allEvents.
Proof.
  split.
  - unfold Events.filteredEvents. rewrite filter_In, keeps_spec. reflexivity.
  - apply filter_all. intros x. reflexivity.
Qed.

(** A choice and a query in capitals find an event whose category and
    title are in mixed case. *)
Lemma filteredEvents_lists_witness :
  let events := [Events.mkEvent "1" "Chess Night" "Games";
                 Events.mkEvent "2" "Cheese Tasting" "Food";
                 Events.mkEvent "3" "Hackathon" "Tech"] in
  Js.toLowerCase "Games" = Js.toLowerCase "GAMES"
  /\ contains (Js.toLowerCase "Chess Night") (Js.toLowerCase "CHESS")
  /\ ~ contains "Chess Night" "CHESS"
  /\ In (Events.mkEvent "1" "Chess Night" "Games")
        (Events.filteredEvents Js.toLowerCase "GAMES" "CHESS" events)
  /\ Events.filteredEvents Js.toLowerCase "GAMES" "CHESS" events
     = [Events.mkEvent "1" "Chess Night" "Games"].
Proof.
  cbv zeta.
  assert (H1 : Js.toLowerCase "Games" = Js.toLowerCase "GAMES") by reflexivity.
  assert (H2 : contains (Js.toLowerCase "Chess Night") (Js.toLowerCase "CHESS"))
    by (exists "", " night"; reflexivity).
  split; [exact H1|]. split; [exact H2|]. split.
  - rewrite <- includes_spec. vm_compute. discriminate.
  - split; [|vm_compute; reflexivity].
    apply (proj1 (filteredEvents_lists Js.toLowerCase "GAMES" "CHESS" _ _)).
    split; [left; reflexivity|]. split; right; assumption.
Defined.

(** X21: the search ignores the letter case of the query: two queries
    with the same lower-case form list the same events, in the same
    order. *)
Theorem filteredEvents_query_case (toLowerCase : string -> string)
    (filter searchQuery searchQuery' : string) (allEvents : list Events.Event) :
  keeps_empty_apart toLowerCase ->
  toLowerCase searchQuery' = toLowerCase searchQuery ->
  Events.filteredEvents toLowerCase filter searchQuery' allEvents
  = Events.filteredEvents toLowerCase filter searchQuery allEvents.
Proof.
  intros He Hq. unfold Events.filteredEvents. apply filter_ext. intros event.
  unfold Events.keeps. rewrite Hq, (same_lower_nonempty _ _ _ He Hq). reflexivity.
Qed.

Lemma filteredEvents_query_case_witness :
  let events := [Events.mkEvent "1" "Chess Night" "Games";
                 Events.mkEvent "2" "Cheese Tasting" "Food";
                 Events.mkEvent "3" "CHESS OPEN" "Games"] in
  keeps_empty_apart Js.toLowerCase
  /\ Js.toLowerCase "chESS" = Js.toLowerCase "Chess"
  /\ "chESS" <> "Chess"
  /\ Events.filteredEvents Js.toLowerCase "all" "chESS" events
     = Events.filteredEvents Js.toLowerCase "all" "Chess" events
  /\ Events.filteredEvents Js.toLowerCase "all" "Chess" events
     = [Events.mkEvent "1" "Chess Night" "Games"; Events.mkEvent "3" "CHESS OPEN" "Games"].
Proof.
  cbv zeta.
  assert (H : Js.toLowerCase "chESS" = Js.toLowerCase "Chess") by reflexivity.
  split; [exact ascii_lowering_keeps_empty_apart|].
  split; [exact H|]. split; [discriminate|].
  split; [|vm_compute; reflexivity].
  exact (filteredEvents_query_case Js.toLowerCase "all" "Chess" "chESS" _
           ascii_lowering_keeps_empty_apart H).
Defined.

(** X22: typing more narrows the list: when the lower-case form of the
    query [shorter] occurs in that of the query [longer], every event
    listed for [longer] is listed for [shorter], and filtering the list
    for [shorter] by [longer] gives the list for [longer]. *)
Theorem filteredEvents_narrows (toLowerCase : string -> string)
    (filter shorter longer : string) (allEvents : list Events.Event) :
  keeps_empty_apart toLowerCase ->
  contains (toLowerCase longer) (toLowerCase shorter) ->
  incl (Events.filteredEvents toLowerCase filter longer allEvents)
       (Events.filteredEvents toLowerCase filter shorter allEvents)
  /\ Events.filteredEvents toLowerCase filter longer
       (Events.filteredEvents toLowerCase filter shorter allEvents)
     = Events.filteredEvents toLowerCase filter longer allEvents.
Proof.
  intros He Hc.
  assert (Hk : forall event, Events.keeps toLowerCase filter longer event = true ->
                             Events.keeps toLowerCase filter shorter event = true).
  { intros event. rewrite !keeps_spec. intros [Hcat [-> | Ht]].
    - split; [exact Hcat|]. left.
      rewrite (proj2 (He "") eq_refl) in Hc. apply contains_empty in Hc.
      exact (proj1 (He shorter) Hc).
    - split; [exact Hcat|]. right. eapply contains_trans; [exact Ht | exact Hc]. }
  split.
  - intros event. unfold Events.filteredEvents. rewrite !filter_In.
    intros [Hin H]. split; [exact Hin | apply Hk, H].
  - unfold Events.filteredEvents.
    induction allEvents as [|event l IH]; [reflexivity|].
    cbn [List.filter].
    destruct (Events.keeps toLowerCase filter shorter event) eqn:Hs; cbn [List.filter].
    + rewrite IH. reflexivity.
    + destruct (Events.keeps toLowerCase filter longer event) eqn:Hl; [|exact IH].
      apply Hk in Hl. congruence.
Qed.

Lemma filteredEvents_narrows_witness :
  let events := [Events.mkEvent "1" "Chess Night" "Games";
                 Events.mkEvent "2" "Cheese Tasting" "Food";
                 Events.mkEvent "3" "Hackathon" "Tech"] in
  keeps_empty_apart Js.toLowerCase
  /\ contains (Js.toLowerCase "CHES") (Js.toLowerCase "che")
  /\ ~ contains "CHES" "che"
  /\ Events.filteredEvents Js.toLowerCase "all" "CHES"
       (Events.filteredEvents Js.toLowerCase "all" "che" events)
     = Events.filteredEvents Js.toLowerCase "all" "CHES" events
  /\ Events.filteredEvents Js.toLowerCase "all" "che" events
     = [Events.mkEvent "1" "Chess Night" "Games"; Events.mkEvent "2" "Cheese Tasting" "Food"]
  /\ Events.filteredEvents Js.toLowerCase "all" "CHES" events
     = [Events.mkEvent "1" "Chess Night" "Games"].
Proof.
  cbv zeta.
  assert (H : contains (Js.toLowerCase "CHES") (Js.toLowerCase "che"))
    by (exists "", "s"; vm_compute; reflexivity).
  split; [exact ascii_lowering_keeps_empty_apart|]. split; [exact H|].
  split; [rewrite <- includes_spec; vm_compute; discriminate|].
  split; [|split; vm_compute; reflexivity].
  exact (proj2 (filteredEvents_narrows Js.toLowerCase "all" "che" "CHES" _
                  ascii_lowering_keeps_empty_apart H)).
Defined.

(** ** The meetups page *)

(** X23: what the meetups page lists: the meetups for which the
    lower-case form of the query occurs in that of the title, or all of
    them, in their order, when the query is empty; two queries with the
    same lower-case form list the same meetups. *)
Theorem filteredMeetups_lists (toLowerCase : string -> string) (searchQuery : string)
    (allMeetups : list Meetup.t) (meetup : Meetup.t) :
  (In meetup (Meetups.filteredMeetups toLowerCase searchQuery allMeetups)
   <-> In meetup allMeetups
       /\ (searchQuery = ""
           \/ contains (toLowerCase (Meetup.title meetup)) (toLowerCase searchQuery)))
  /\ Meetups.filteredMeetups toLowerCase "" allMeetups = allMeetups
  /\ (keeps_empty_apart toLowerCase ->
      forall searchQuery',
        toLowerCase searchQuery' = toLowerCase searchQuery ->
        Meetups.filteredMeetups toLowerCase searchQuery' allMeetups
        = Meetups.filteredMeetups toLowerCase searchQuery allMeetups).
Proof.
  split; [|split].
  - unfold Meetups.filteredMeetups. rewrite filter_In, <- title_test_spec.
    unfold Meetups.keeps. destruct (nonempty searchQuery && _); [|tauto].
    split; [intros [_ H] | intros [_ H]]; discriminate H.
  - apply filter_all. intros x. reflexivity.
  - intros He q' Hq. unfold Meetups.filteredMeetups. apply filter_ext. intros m.
    unfold Meetups.keeps. rewrite Hq, (same_lower_nonempty _ _ _ He Hq). reflexivity.
Qed.

Lemma filteredMeetups_lists_witness :
  let chess := Meetup.mk "1" "Chess Night" "" "2025-03-01" "SU" 3 "Student" None 5 [] in
  let go := Meetup.mk "2" "Go Club" "" "2025-03-02" "SU" 3 "Student" None 5 [] in
  keeps_empty_apart Js.toLowerCase
  /\ Js.toLowerCase "NIGHT" = Js.toLowerCase "night"
  /\ ~ contains "Chess Night" "NIGHT"
  /\ Meetups.filteredMeetups Js.toLowerCase "NIGHT" [chess; go]
     = Meetups.filteredMeetups Js.toLowerCase "night" [chess; go]
  /\ Meetups.filteredMeetups Js.toLowerCase "night" [chess; go] = [chess].
Proof.
  cbv zeta.
  assert (H : Js.toLowerCase "NIGHT" = Js.toLowerCase "night") by reflexivity.
  split; [exact ascii_lowering_keeps_empty_apart|]. split; [exact H|].
  split; [rewrite <- includes_spec; vm_compute; discriminate|].
  split; [|vm_compute; reflexivity].
  exact (proj2 (proj2 (filteredMeetups_lists Js.toLowerCase "night" _
                         (Meetup.mk "1" "Chess Night" "" "2025-03-01" "SU" 3 "Student"
                            None 5 [])))
           ascii_lowering_keeps_empty_apart "NIGHT" H).
Defined.

Lemma NoDup_map_injective (A B : Type) (f : A -> B) (l : list A) :
  (forall x y, f x = f y -> x = y) -> NoDup l -> NoDup (map f l).
Proof.
  intros Hf. induction 1 as [|x l Hx Hl IH]; cbn [map]; constructor; [|exact IH].
  rewrite list_elem_of_In, in_map_iff. intros (y & Hy & Hin).
  apply Hf in Hy. subst y. apply Hx. apply list_elem_of_In. exact Hin.
Qed.

(** X24: the conversion of the rows keeps the meetups apart.  When the
    ids of the rows are safe integers (at most 2^53 - 1 in absolute
    value), which [toString] prints in decimal digits, the ids of the
    meetups are the ids of the rows in decimal digits, and rows with
    distinct ids give meetups with distinct ids; there is one meetup per
    row, in the order of the rows. *)
Theorem toMeetup_keeps_ids_distinct (toString : Z -> string) (rows : list EventRow.t) :
  decimal_on_safe_integers toString ->
  Forall safe_integer (map EventRow.id rows) ->
  NoDup (map EventRow.id rows) ->
  map Meetup.id (map (Meetups.toMeetup toString) rows) = map pretty (map EventRow.id rows)
  /\ NoDup (map Meetup.id (map (Meetups.toMeetup toString) rows))
  /\ length (map (Meetups.toMeetup toString) rows) = length rows
  /\ map Meetup.title (map (Meetups.toMeetup toString) rows) = map EventRow.title rows.
Proof.
  intros Hd Hs H.
  assert (Hids : map Meetup.id (map (Meetups.toMeetup toString) rows)
                 = map pretty (map EventRow.id rows)).
  { clear H. induction rows as [|row rows IH]; [reflexivity|].
    cbn [map] in *. apply Forall_cons in Hs as [Hrow Hs].
    cbn [Meetups.toMeetup Meetup.id]. rewrite (Hd _ Hrow), (IH Hs). reflexivity. }
  split; [exact Hids|]. split; [|split].
  - rewrite Hids. apply NoDup_map_injective; [|exact H].
    intros x y Hxy. apply (inj pretty). exact Hxy.
  - apply length_map.
  - rewrite map_map. reflexivity.
Qed.

Lemma toMeetup_keeps_ids_distinct_witness :
  let rows := [EventRow.mk 7 "Chess" None "SU" "2025-03-01" "2025-02-01" 1 None None None;
               EventRow.mk (-7) "Go" (Some "") "SU" "2025-03-02" "2025-02-01" 1 (Some 0%Z)
                 None None] in
  decimal_on_safe_integers pretty
  /\ Forall safe_integer (map EventRow.id rows)
  /\ NoDup (map EventRow.id rows)
  /\ NoDup (map Meetup.id (map (Meetups.toMeetup pretty) rows))
  /\ map Meetup.id (map (Meetups.toMeetup pretty) rows) = ["7"; "-7"].
Proof.
  cbv zeta.
  assert (Hd : decimal_on_safe_integers pretty) by (intros n _; reflexivity).
  assert (Hs : Forall safe_integer (map EventRow.id
                [EventRow.mk 7 "Chess" None "SU" "2025-03-01" "2025-02-01" 1 None None None;
                 EventRow.mk (-7) "Go" (Some "") "SU" "2025-03-02" "2025-02-01" 1 (Some 0%Z)
                   None None])).
  { cbn [map EventRow.id]. repeat constructor; unfold safe_integer; lia. }
  assert (H : NoDup (map EventRow.id
                [EventRow.mk 7 "Chess" None "SU" "2025-03-01" "2025-02-01" 1 None None None;
                 EventRow.mk (-7) "Go" (Some "") "SU" "2025-03-02" "2025-02-01" 1 (Some 0%Z)
                   None None])).
  { cbn [map EventRow.id]. constructor; [|constructor; [|constructor]].
    - rewrite list_elem_of_In. intros [Heq | []]. discriminate Heq.
    - rewrite list_elem_of_In. intros []. }
  split; [exact Hd|]. split; [exact Hs|]. split; [exact H|].
  split; [exact (proj1 (proj2 (toMeetup_keeps_ids_distinct pretty _ Hd Hs H)))
         | vm_compute; reflexivity].
Defined.

(** X25: the defaults of the conversion: a meetup never has 0 points and
    never an empty description: a reward that is missing or 0 becomes 3,
    a description that is missing or empty becomes "No description
    available", and any other reward or description is kept. *)
Theorem toMeetup_defaults (toString : Z -> string) (row : EventRow.t) :
  Meetup.points (Meetups.toMeetup toString row) <> 0%Z
  /\ Meetup.description (Meetups.toMeetup toString row) <> ""
  /\ (forall n, EventRow.xp_reward row = Some n -> n <> 0%Z ->
                Meetup.points (Meetups.toMeetup toString row) = n)
  /\ (EventRow.xp_reward row = None \/ EventRow.xp_reward row = Some 0%Z ->
      Meetup.points (Meetups.toMeetup toString row) = 3%Z)
  /\ (forall d, EventRow.description row = Some d -> d <> "" ->
                Meetup.description (Meetups.toMeetup toString row) = d)
  /\ (EventRow.description row = None \/ EventRow.description row = Some "" ->
      Meetup.description (Meetups.toMeetup toString row) = "No description available").
Proof.
  unfold Meetups.toMeetup. cbn [Meetup.points Meetup.description].
  destruct (EventRow.xp_reward row) as [[|n|n]|];
    destruct (EventRow.description row) as [[|c d]|]; cbn.
  all: repeat split; try discriminate; try congruence.
  all: try (intros ? H; injection H as <-; congruence).
  all: try (intros [H | H]; congruence).
Qed.

(** X26: the fetch of the meetups page.  It always ends with [isLoading]
    false.  When the database helpers are initialised and the query
    answers without error with at least one row, the list becomes the
    converted rows, in their order; in every other case (an empty answer,
    no data, an error, a rejected promise) the list is the one that was
    there.  It shows a toast exactly when the query answers with an
    error. *)
Theorem fetchMeetups_replaces_only_by_rows (toString : Z -> string)
    (db : Meetups.Database) (s : Meetups.State) :
  Meetups.isLoading (fst (Meetups.fetchMeetups toString db s)) = false
  /\ Meetups.allMeetups (fst (Meetups.fetchMeetups toString db s))
     = match Meetups.initializeDatabase db, Meetups.select_events db with
       | None, Supabase.Resolves (Some (row :: rows)) None =>
           map (Meetups.toMeetup toString) (row :: rows)
       | _, _ => Meetups.allMeetups s
       end
  /\ (snd (Meetups.fetchMeetups toString db s) <> []
      <-> Meetups.initializeDatabase db = None
          /\ exists data e, Meetups.select_events db = Supabase.Resolves data (Some e)).
Proof.
  unfold Meetups.fetchMeetups.
  destruct (Meetups.initializeDatabase db) as [e0|].
  - cbn. split; [reflexivity|]. split; [reflexivity|].
    split; [congruence | intros [H _]; discriminate H].
  - destruct (Meetups.select_events db) as [[[|row rows]|] [e|]|e]; cbn.
    all: split; [reflexivity|].
    all: split; [reflexivity|].
    all: split; [try congruence; eauto | try (intros (_ & d & x & H); discriminate H)].
    all: try discriminate.
Qed.

(** ** The meetup service *)

(** X27: joining a lobby never reports a failure: [joinMeetupLobby]
    resolves with [true] whether the API answers, answers with an error or
    cannot be reached, whereas [checkInToMeetup] resolves with [true] only
    when the API answered without an error, and with [false] otherwise.
    Neither rejects, and each shows its toast exactly when the API
    answered without an error. *)
Theorem lobby_calls_never_reject (api : MeetupService.Settled (MeetupService.ApiResponse unit)) :
  fst (MeetupService.joinMeetupLobby api) = MeetupService.Resolves true
  /\ fst (MeetupService.checkInToMeetup api)
     = MeetupService.Resolves (MeetupService.answered_ok api)
  /\ existsb MeetupService.is_toast (snd (MeetupService.joinMeetupLobby api))
     = MeetupService.answered_ok api
  /\ existsb MeetupService.is_toast (snd (MeetupService.checkInToMeetup api))
     = MeetupService.answered_ok api.
Proof.
  destruct api as [[data error]|e]; [|repeat split].
  unfold MeetupService.joinMeetupLobby, MeetupService.checkInToMeetup.
  cbn. destruct (Js.truthy error); repeat split.
Qed.


(** ** The domain check, letter by letter *)

Lemma toLowerCase_length (s : string) : String.length (Js.toLowerCase s) = String.length s.
Proof. induction s as [|c s IH]; [reflexivity | cbn; rewrite IH; reflexivity]. Qed.

(** A split of the lower-case form is the lower-case form of a split. *)
Lemma toLowerCase_split (s a b : string) :
  Js.toLowerCase s = a +:+ b ->
  exists a' b', s = a' +:+ b' /\ Js.toLowerCase a' = a /\ Js.toLowerCase b' = b.
Proof.
  revert s. induction a as [|x a IH]; intros s H.
  - exists "", s. repeat split. exact H.
  - destruct s as [|c s]; [discriminate H|].
    cbn [Js.toLowerCase] in H. rewrite append_cons in H. injection H as Hc Hs.
    destruct (IH s Hs) as (a' & b' & -> & Ha & Hb).
    exists (String c a'), b'. rewrite append_cons. cbn [Js.toLowerCase].
    rewrite Hc, Ha. repeat split. exact Hb.
Qed.

(** X29: the domain check looks at the last thirteen characters only: it
    accepts exactly the strings made of any local part, the empty one and
    one with a further "@" included, followed by thirteen characters that
    spell "@utdallas.edu" in some mix of upper and lower case.  It
    therefore accepts an email exactly when it accepts its lower-case
    form. *)
Theorem isValidUTDEmail_last_thirteen (email : string) :
  (isValidUTDEmail email = true
   <-> exists localPart domain,
         email = localPart +:+ domain
         /\ String.length domain = 13
         /\ Js.toLowerCase domain = "@utdallas.edu")
  /\ isValidUTDEmail (Js.toLowerCase email) = isValidUTDEmail email.
Proof.
  split.
  - rewrite isValidUTDEmail_spec. split.
    + intros [p H]. destruct (toLowerCase_split _ _ _ H) as (a & b & -> & _ & Hb).
      exists a, b. repeat split; [|exact Hb].
      rewrite <- (toLowerCase_length b), Hb. reflexivity.
    + intros (a & b & -> & _ & Hb). exists (Js.toLowerCase a).
      rewrite toLowerCase_app, Hb. reflexivity.
  - unfold isValidUTDEmail. rewrite toLowerCase_idemp. reflexivity.
Qed.
